(** * The user resource of the go-jira client (user.go)

    A shallow embedding of [UserService] and of the JSON mapping that the
    struct tags of [User] and [UserGroup] select in encoding/json.

    Go strings are byte strings and are modelled by [string] (a list of
    8-bit characters).  String fields are taken to hold valid UTF-8 text,
    which encoding/json carries through unchanged.  A Go [int] is modelled
    by [Z]; a Go pointer by [option] ([None] is the nil pointer); a pair
    of results [(x, err)] by a pair whose second component is an
    [option error] ([None] is the nil error). *)

From Stdlib Require Import String Ascii List ZArith Bool Lia DecimalString.
From Stdlib Require Import DecimalPos DecimalZ.
Import ListNotations.
Open Scope string_scope.
Set Warnings "-register-all".

(** ** JSON documents *)

(** A parsed JSON document.  An object keeps its members in document
    order, duplicates included: encoding/json stores them one after the
    other.  A number keeps its literal. *)
Inductive JSON : Type :=
| JNull
| JBool (b : bool)
| JNumber (literal : string)
| JString (s : string)
| JArray (elements : list JSON)
| JObject (members : list (string * JSON)).

Definition member : Type := (string * JSON)%type.

(** The name encoding/json gives a JSON value in an UnmarshalTypeError. *)
Definition kindName (j : JSON) : string :=
  match j with
  | JNull => "null"
  | JBool _ => "bool"
  | JNumber _ => "number"
  | JString _ => "string"
  | JArray _ => "array"
  | JObject _ => "object"
  end.

(** Every key of a document, at any depth. *)
Fixpoint allKeys (j : JSON) : list string :=
  match j with
  | JArray l => flat_map allKeys l
  | JObject ms =>
      (fix members (ms : list member) : list string :=
         match ms with
         | [] => []
         | (k, v) :: rest => k :: allKeys v ++ members rest
         end) ms
  | _ => []
  end.

(** ** Errors *)

(** The error values that reach a caller of this file.  [Errorf] stands
    for fmt.Errorf and for whatever error a collaborator hands back;
    [SyntaxError] and [UnmarshalTypeError] are those of encoding/json;
    [JiraErr] is the result of [NewJiraError] below. *)
Inductive error : Type :=
| Errorf (msg : string)
| SyntaxError
| UnmarshalTypeError (value : string) (field : string)
| JiraErr (context : option (string * string)) (cause : error).

(** Go keeps the first error of a sequence of stores (decodeState.saveError). *)
Definition saveError (saved new : option error) : option error :=
  match saved with
  | Some e => Some e
  | None => new
  end.

(** ** Formatting *)

(** fmt.Sprintf with the verb %d. *)
Definition fmt_d (n : Z) : string := NilZero.string_of_int (Z.to_int n).

(** fmt.Sprintf with the verb %t. *)
Definition fmt_t (b : bool) : string := if b then "true" else "false".

(** ** Outcomes *)

(** A Go call either returns or panics (run-time error). *)
Inductive outcome (A : Type) : Type :=
| Returns (a : A)
| Panics.
Arguments Returns {A} a.
Arguments Panics {A}.

(** The slice expression s[:hi] on a string: a run-time panic when [hi]
    is out of range. *)
Definition sliceTo (s : string) (hi : Z) : outcome string :=
  if ((0 <=? hi) && (hi <=? Z.of_nat (String.length s)))%Z
  then Returns (substring 0 (Z.to_nat hi) s)
  else Panics.

(** ** Field names under encoding/json's case folding *)

Definition toLower (c : ascii) : ascii :=
  let n := nat_of_ascii c in
  if ((65 <=? n) && (n <=? 90))%nat then ascii_of_nat (n + 32) else c.

Fixpoint foldName (s : string) : string :=
  match s with
  | EmptyString => EmptyString
  | String c rest => String (toLower c) (foldName rest)
  end.

(** A key of a JSON object selects the struct field whose name it equals,
    and otherwise the first field whose name it equals up to the case of
    its letters (folded here for ASCII letters). *)
Definition equalFold (a b : string) : bool := foldName a =? foldName b.

Section FieldLookup.
Context {F : Type} (nameOf : F -> string).

Definition fieldByKey (fields : list F) (key : string) : option F :=
  match find (fun f => nameOf f =? key) fields with
  | Some f => Some f
  | None => find (fun f => equalFold (nameOf f) key) fields
  end.

End FieldLookup.

(** ** The data model (user.go, lines 17-49) *)

(** Modelled from the spec: the declaration of AvatarUrls is not part of
    user.go.  The spec describes an avatar URL set of four variants (small,
    medium, large, xlarge), each an optional URL string; the wire names
    are Jira's avatar sizes, each with omitempty like the string fields of
    [User]. *)
Module AvatarUrls.

Record t : Type := Build {
  Small : string;
  Medium : string;
  Large : string;
  XLarge : string
}.

Definition zero : t := Build "" "" "" "".

Inductive field : Type := FSmall | FMedium | FLarge | FXLarge.

Definition fields : list field := [FSmall; FMedium; FLarge; FXLarge].

Definition jsonName (f : field) : string :=
  match f with
  | FSmall => "16x16"
  | FMedium => "24x24"
  | FLarge => "32x32"
  | FXLarge => "48x48"
  end.

End AvatarUrls.

(** UserGroup represents the group list. *)
Module UserGroup.

Record t : Type := Build {
  Self : string;
  Name : string
}.

Definition zero : t := Build "" "".

Inductive field : Type := FSelf | FName.

Definition fields : list field := [FSelf; FName].

Definition jsonName (f : field) : string :=
  match f with
  | FSelf => "self"
  | FName => "name"
  end.

End UserGroup.

(** User represents a JIRA user. *)
Module User.

Record t : Type := Build {
  Self : string;
  AccountID : string;
  AccountType : string;
  Name : string;
  Key : string;
  Password : string;
  EmailAddress : string;
  AvatarUrls : AvatarUrls.t;
  DisplayName : string;
  Active : bool;
  TimeZone : string;
  Locale : string;
  ApplicationKeys : list string
}.

(** The value of new(User). *)
Definition zero : t :=
  Build "" "" "" "" "" "" "" AvatarUrls.zero "" false "" "" [].

(** The fields encoding/json sees, in declaration order.  [Password] is
    tagged json:"-" and is none of them. *)
Inductive field : Type :=
| FSelf | FAccountID | FAccountType | FName | FKey | FEmailAddress
| FAvatarUrls | FDisplayName | FActive | FTimeZone | FLocale
| FApplicationKeys.

Definition fields : list field :=
  [FSelf; FAccountID; FAccountType; FName; FKey; FEmailAddress;
   FAvatarUrls; FDisplayName; FActive; FTimeZone; FLocale;
   FApplicationKeys].

Definition jsonName (f : field) : string :=
  match f with
  | FSelf => "self"
  | FAccountID => "accountId"
  | FAccountType => "accountType"
  | FName => "name"
  | FKey => "key"
  | FEmailAddress => "emailAddress"
  | FAvatarUrls => "avatarUrls"
  | FDisplayName => "displayName"
  | FActive => "active"
  | FTimeZone => "timeZone"
  | FLocale => "locale"
  | FApplicationKeys => "applicationKeys"
  end.

Definition withPassword (p : string) (u : t) : t :=
  Build (Self u) (AccountID u) (AccountType u) (Name u) (Key u) p
        (EmailAddress u) (AvatarUrls u) (DisplayName u) (Active u)
        (TimeZone u) (Locale u) (ApplicationKeys u).

End User.

Record userSearchParam : Type := {
  name : string;
  value : string
}.

Definition userSearch : Type := list userSearchParam.

Definition userSearchF : Type := userSearch -> userSearch.

(** ** encoding/json: Marshal under the struct tags *)

(** A field tagged omitempty is left out when it holds the empty value of
    its type: the empty string, false, a slice of length 0.  A struct is
    never empty, so omitempty on [AvatarUrls] has no effect. *)
Definition omitemptyString (key v : string) : list member :=
  if v =? "" then [] else [(key, JString v)].

Definition omitemptyBool (key : string) (b : bool) : list member :=
  if b then [(key, JBool true)] else [].

Definition omitemptyStrings (key : string) (l : list string) : list member :=
  match l with
  | [] => []
  | _ :: _ => [(key, JArray (map JString l))]
  end.

Definition avatarField (f : AvatarUrls.field) (a : AvatarUrls.t) : string :=
  match f with
  | AvatarUrls.FSmall => AvatarUrls.Small a
  | AvatarUrls.FMedium => AvatarUrls.Medium a
  | AvatarUrls.FLarge => AvatarUrls.Large a
  | AvatarUrls.FXLarge => AvatarUrls.XLarge a
  end.

Definition marshalAvatarUrls (a : AvatarUrls.t) : JSON :=
  JObject (flat_map (fun f => omitemptyString (AvatarUrls.jsonName f) (avatarField f a))
                    AvatarUrls.fields).

Definition marshalUserField (f : User.field) (u : User.t) : list member :=
  let key := User.jsonName f in
  match f with
  | User.FSelf => omitemptyString key (User.Self u)
  | User.FAccountID => omitemptyString key (User.AccountID u)
  | User.FAccountType => omitemptyString key (User.AccountType u)
  | User.FName => omitemptyString key (User.Name u)
  | User.FKey => omitemptyString key (User.Key u)
  | User.FEmailAddress => omitemptyString key (User.EmailAddress u)
  | User.FAvatarUrls => [(key, marshalAvatarUrls (User.AvatarUrls u))]
  | User.FDisplayName => omitemptyString key (User.DisplayName u)
  | User.FActive => omitemptyBool key (User.Active u)
  | User.FTimeZone => omitemptyString key (User.TimeZone u)
  | User.FLocale => omitemptyString key (User.Locale u)
  | User.FApplicationKeys => omitemptyStrings key (User.ApplicationKeys u)
  end.

(** The JSON document json.Marshal (or an Encoder) writes for a User. *)
Definition marshalUser (u : User.t) : JSON :=
  JObject (flat_map (fun f => marshalUserField f u) User.fields).

(** ** encoding/json: Unmarshal under the struct tags *)

(** Storing a JSON value into a Go value gives the new value and the
    UnmarshalTypeError of a mismatch, after which decoding goes on. *)
Class Unmarshaler (A : Type) : Type :=
  unmarshalJSON : JSON -> A -> A * option error.

Definition storeString (field : string) (j : JSON) (old : string)
  : string * option error :=
  match j with
  | JString s => (s, None)
  | JNull => (old, None)
  | _ => (old, Some (UnmarshalTypeError (kindName j) field))
  end.

Definition storeBool (field : string) (j : JSON) (old : bool)
  : bool * option error :=
  match j with
  | JBool b => (b, None)
  | JNull => (old, None)
  | _ => (old, Some (UnmarshalTypeError (kindName j) field))
  end.

Section Slices.
Context {A : Type} (zero : A) (store : JSON -> A -> A * option error).

(** Element i of the array is stored into element i of the slice, grown
    by a zero element where the slice is shorter. *)
Fixpoint storeElements (elems : list JSON) (old : list A)
  : list A * option error :=
  match elems with
  | [] => ([], None)
  | e :: rest =>
      let '(a, err) := store e (hd zero old) in
      let '(l, errs) := storeElements rest (tl old) in
      (a :: l, saveError err errs)
  end.

Definition storeSlice (field : string) (j : JSON) (old : list A)
  : list A * option error :=
  match j with
  | JArray elems => storeElements elems old
  | JNull => ([], None)
  | _ => (old, Some (UnmarshalTypeError (kindName j) field))
  end.

End Slices.

Section Structs.
Context {T F : Type} (nameOf : F -> string) (fields : list F)
        (storeField : F -> JSON -> T -> T * option error).

(** One member of an object: stored into the field its key selects,
    skipped when it selects none. *)
Definition storeMember (acc : T * option error) (m : member)
  : T * option error :=
  let '(v, err) := acc in
  match fieldByKey nameOf fields (fst m) with
  | Some f => let '(v', e) := storeField f (snd m) v in (v', saveError err e)
  | None => (v, err)
  end.

Definition storeStruct (type : string) (j : JSON) (v : T) : T * option error :=
  match j with
  | JObject ms => fold_left storeMember ms (v, None)
  | JNull => (v, None)
  | _ => (v, Some (UnmarshalTypeError (kindName j) type))
  end.

End Structs.

Definition storeAvatarField (f : AvatarUrls.field) (j : JSON) (a : AvatarUrls.t)
  : AvatarUrls.t * option error :=
  let key := AvatarUrls.jsonName f in
  let '(s, e) := storeString key j (avatarField f a) in
  (match f with
   | AvatarUrls.FSmall =>
       AvatarUrls.Build s (AvatarUrls.Medium a) (AvatarUrls.Large a) (AvatarUrls.XLarge a)
   | AvatarUrls.FMedium =>
       AvatarUrls.Build (AvatarUrls.Small a) s (AvatarUrls.Large a) (AvatarUrls.XLarge a)
   | AvatarUrls.FLarge =>
       AvatarUrls.Build (AvatarUrls.Small a) (AvatarUrls.Medium a) s (AvatarUrls.XLarge a)
   | AvatarUrls.FXLarge =>
       AvatarUrls.Build (AvatarUrls.Small a) (AvatarUrls.Medium a) (AvatarUrls.Large a) s
   end, e).

#[export] Instance unmarshalAvatarUrls : Unmarshaler AvatarUrls.t :=
  storeStruct AvatarUrls.jsonName AvatarUrls.fields storeAvatarField "AvatarUrls".

Definition storeUserGroupField (f : UserGroup.field) (j : JSON) (g : UserGroup.t)
  : UserGroup.t * option error :=
  let key := UserGroup.jsonName f in
  match f with
  | UserGroup.FSelf =>
      let '(s, e) := storeString key j (UserGroup.Self g) in
      (UserGroup.Build s (UserGroup.Name g), e)
  | UserGroup.FName =>
      let '(s, e) := storeString key j (UserGroup.Name g) in
      (UserGroup.Build (UserGroup.Self g) s, e)
  end.

#[export] Instance unmarshalUserGroup : Unmarshaler UserGroup.t :=
  storeStruct UserGroup.jsonName UserGroup.fields storeUserGroupField "UserGroup".

(** The store into one field of a User.  No case writes [Password]: the
    tag json:"-" keeps it out of [User.fields]. *)
Definition storeUserField (f : User.field) (j : JSON) (u : User.t)
  : User.t * option error :=
  let key := User.jsonName f in
  let '(User.Build self accountId accountType name key' password email
                   avatars displayName active timeZone locale appKeys) := u in
  match f with
  | User.FSelf =>
      let '(s, e) := storeString key j self in
      (User.Build s accountId accountType name key' password email
                  avatars displayName active timeZone locale appKeys, e)
  | User.FAccountID =>
      let '(s, e) := storeString key j accountId in
      (User.Build self s accountType name key' password email
                  avatars displayName active timeZone locale appKeys, e)
  | User.FAccountType =>
      let '(s, e) := storeString key j accountType in
      (User.Build self accountId s name key' password email
                  avatars displayName active timeZone locale appKeys, e)
  | User.FName =>
      let '(s, e) := storeString key j name in
      (User.Build self accountId accountType s key' password email
                  avatars displayName active timeZone locale appKeys, e)
  | User.FKey =>
      let '(s, e) := storeString key j key' in
      (User.Build self accountId accountType name s password email
                  avatars displayName active timeZone locale appKeys, e)
  | User.FEmailAddress =>
      let '(s, e) := storeString key j email in
      (User.Build self accountId accountType name key' password s
                  avatars displayName active timeZone locale appKeys, e)
  | User.FAvatarUrls =>
      let '(a, e) := unmarshalAvatarUrls j avatars in
      (User.Build self accountId accountType name key' password email
                  a displayName active timeZone locale appKeys, e)
  | User.FDisplayName =>
      let '(s, e) := storeString key j displayName in
      (User.Build self accountId accountType name key' password email
                  avatars s active timeZone locale appKeys, e)
  | User.FActive =>
      let '(b, e) := storeBool key j active in
      (User.Build self accountId accountType name key' password email
                  avatars displayName b timeZone locale appKeys, e)
  | User.FTimeZone =>
      let '(s, e) := storeString key j timeZone in
      (User.Build self accountId accountType name key' password email
                  avatars displayName active s locale appKeys, e)
  | User.FLocale =>
      let '(s, e) := storeString key j locale in
      (User.Build self accountId accountType name key' password email
                  avatars displayName active timeZone s appKeys, e)
  | User.FApplicationKeys =>
      let '(l, e) := storeSlice "" (storeString key) key j appKeys in
      (User.Build self accountId accountType name key' password email
                  avatars displayName active timeZone locale l, e)
  end.

#[export] Instance unmarshalUser : Unmarshaler User.t :=
  storeStruct User.jsonName User.fields storeUserField "User".

#[export] Instance unmarshalUsers : Unmarshaler (list User.t) :=
  storeSlice User.zero unmarshalUser "[]User".

#[export] Instance unmarshalUserGroups : Unmarshaler (list UserGroup.t) :=
  storeSlice UserGroup.zero unmarshalUserGroup "[]UserGroup".

(** ** The collaborators of user.go *)

(** context.Context: the background context or one derived by the caller. *)
Inductive Context : Type :=
| Background
| Derived (tag : string) (parent : Context).

(** What a built *http.Request carries: the arguments it was built from. *)
Record Request : Type := {
  reqCtx : Context;
  reqMethod : string;
  reqURL : string;
  reqBody : option JSON
}.

(** An io.ReadCloser as ioutil.ReadAll sees it: the bytes it yields and
    the error that cut the reading short, if any. *)
Record ReadCloser : Type := {
  content : string;
  failure : option error
}.

Definition ReadAll (r : ReadCloser) : string * option error :=
  (content r, failure r).

(** Modelled from the spec: Response is declared outside user.go.  The
    spec calls it the raw response handle; it carries the status and the
    body that error wrapping and the create path read. *)
Record Response : Type := {
  Status : string;
  StatusCode : Z;
  Body : ReadCloser
}.

(** Modelled from the spec: NewJiraError is declared outside user.go.  The
    spec says of it that the error is wrapped with response context
    (status, body snippet) before it is returned to the caller. *)
Definition NewJiraError (resp : option Response) (httpError : error) : error :=
  JiraErr (option_map (fun r => (Status r, content (Body r))) resp) httpError.

(** Modelled from the spec: Client is declared outside user.go.  The spec
    describes it as a request builder (method, path, optional body, bound
    to a context) and an executor that produces a typed-decoded result, a
    raw response handle and an error.  Both are fields here, so that every
    statement about a UserService holds for every client.  A request body,
    an interface value in Go, is passed as the JSON document the client
    encodes it to.  The target [v] of [Do] is nil or points to a value the
    executor decodes the response into; [Do] gives back what [v] points to
    after the call. *)
Record Client : Type := {
  NewRequestWithContext :
    Context -> string -> string -> option JSON -> option Request * option error;
  Do : forall (A : Type), Unmarshaler A ->
       option Request -> option A -> option A * option Response * option error
}.

Record UserService : Type := {
  client : Client
}.

(** ** Calls on the outside world *)

(** What a call of this file does to its collaborators, in order. *)
Inductive event : Type :=
| NewRequestCall (ctx : Context) (method urlStr : string) (body : option JSON)
| DoCall (req : option Request)
| ReadAllCall (body : ReadCloser)
| CloseCall (body : ReadCloser).

Definition trace : Type := list event.

(** A computation that appends to the trace of calls made so far. *)
Definition IO (A : Type) : Type := trace -> A * trace.

Definition ret {A : Type} (a : A) : IO A := fun t => (a, t).

Definition bind {A B : Type} (m : IO A) (k : A -> IO B) : IO B :=
  fun t => let '(a, t') := m t in k a t'.

Notation "x <- m ;; k" := (bind m (fun x => k))
  (at level 61, m at next level, right associativity).
Notation "' p <- m ;; k" := (bind m (fun x => let p := x in k))
  (at level 61, p pattern, m at next level, right associativity).

Definition emit (e : event) : IO unit := fun t => (tt, (t ++ [e])%list).

(** A whole call, started on the empty trace. *)
Definition run {A : Type} (m : IO A) : A * trace := m [].

Definition result {A : Type} (m : IO A) : A := fst (run m).

Definition calls {A : Type} (m : IO A) : trace := snd (run m).

Definition newRequest (c : Client) (ctx : Context) (method urlStr : string)
           (body : option JSON) : IO (option Request * option error) :=
  _ <- emit (NewRequestCall ctx method urlStr body) ;;
  ret (NewRequestWithContext c ctx method urlStr body).

Definition doRequest {A : Type} {U : Unmarshaler A} (c : Client)
           (req : option Request) (v : option A)
  : IO (option A * option Response * option error) :=
  _ <- emit (DoCall req) ;;
  ret (Do c A U req v).

Definition readAll (body : ReadCloser) : IO (string * option error) :=
  _ <- emit (ReadAllCall body) ;;
  ret (ReadAll body).

Definition close (body : ReadCloser) : IO unit := emit (CloseCall body).

(** defer: the deferred call runs when the rest of the function has
    produced its results. *)
Definition defer {A : Type} (deferred : IO unit) (rest : IO A) : IO A :=
  a <- rest ;;
  _ <- deferred ;;
  ret a.

(** The type of the target of [Do] when the caller passes nil: it has no
    value to point to. *)
Definition NoTarget : Type := Empty_set.

#[export] Instance unmarshalNoTarget : Unmarshaler NoTarget :=
  fun _ v => (v, None).

(** The results of the calls of this file, as Go returns them. *)
Definition userResult : Type :=
  (option User.t * option Response * option error)%type.

Definition groupsResult : Type :=
  (option (list UserGroup.t) * option Response * option error)%type.

Definition usersResult : Type :=
  (option (list User.t) * option Response * option error)%type.

Definition deleteResult : Type := (option Response * option error)%type.

(** ** Search options (user.go, lines 204-234) *)

(** WithMaxResults sets the max results to return. *)
Definition WithMaxResults (maxResults : Z) : userSearchF :=
  fun s => (s ++ [{| name := "maxResults"; value := fmt_d maxResults |}])%list.

(** WithStartAt set the start pager. *)
Definition WithStartAt (startAt : Z) : userSearchF :=
  fun s => (s ++ [{| name := "startAt"; value := fmt_d startAt |}])%list.

(** WithActive sets the active users lookup. *)
Definition WithActive (active : bool) : userSearchF :=
  fun s => (s ++ [{| name := "includeActive"; value := fmt_t active |}])%list.

(** WithInactive sets the inactive users lookup. *)
Definition WithInactive (inactive : bool) : userSearchF :=
  fun s => (s ++ [{| name := "includeInactive"; value := fmt_t inactive |}])%list.

(** The two loops of FindWithContext (lines 241-254): the options applied
    in turn to the one-element search, and the parameters written out,
    each followed by an ampersand. *)
Definition applyTweaks (property : string) (tweaks : list userSearchF) : userSearch :=
  fold_left (fun search f => f search) tweaks
            [{| name := "username"; value := property |}].

Definition writeParams (search : userSearch) : string :=
  fold_left (fun queryString param =>
               queryString ++ name param ++ "=" ++ value param ++ "&")
            search "".

(** Line 256: the endpoint, the last byte of the query string cut off. *)
Definition findEndpoint (property : string) (tweaks : list userSearchF)
  : outcome string :=
  let queryString := writeParams (applyTweaks property tweaks) in
  match sliceTo queryString (Z.of_nat (String.length queryString) - 1) with
  | Returns q => Returns ("/rest/api/2/user/search?" ++ q)
  | Panics => Panics
  end.

(** ** The operations of UserService (user.go, lines 51-273) *)

Section Service.

(** The syntax layer of json.Unmarshal: the document a byte string
    denotes, or nothing when it is not valid JSON. *)
Variable parse : string -> option JSON.

Definition json_Unmarshal {A : Type} {U : Unmarshaler A} (data : string) (v : A)
  : A * option error :=
  match parse data with
  | None => (v, Some SyntaxError)
  | Some j => unmarshalJSON j v
  end.

(** GetWithContext gets user info from JIRA. *)
Definition GetWithContext (s : UserService) (ctx : Context) (username : string)
  : IO userResult :=
  let apiEndpoint := "/rest/api/2/user?username=" ++ username in
  '(req, err) <- newRequest (client s) ctx "GET" apiEndpoint None ;;
  match err with
  | Some e => ret (None, None, Some e)
  | None =>
      let user := User.zero in
      '(user, resp, err) <- doRequest (client s) req (Some user) ;;
      match err with
      | Some e => ret (None, resp, Some (NewJiraError resp e))
      | None => ret (user, resp, None)
      end
  end.

(** Get wraps GetWithContext using the background context. *)
Definition Get (s : UserService) (username : string) : IO userResult :=
  GetWithContext s Background username.

(** GetByAccountIDWithContext gets user info from JIRA. *)
Definition GetByAccountIDWithContext (s : UserService) (ctx : Context)
           (accountID : string) : IO userResult :=
  let apiEndpoint := "/rest/api/2/user?accountId=" ++ accountID in
  '(req, err) <- newRequest (client s) ctx "GET" apiEndpoint None ;;
  match err with
  | Some e => ret (None, None, Some e)
  | None =>
      let user := User.zero in
      '(user, resp, err) <- doRequest (client s) req (Some user) ;;
      match err with
      | Some e => ret (None, resp, Some (NewJiraError resp e))
      | None => ret (user, resp, None)
      end
  end.

(** GetByAccountID wraps GetByAccountIDWithContext using the background context. *)
Definition GetByAccountID (s : UserService) (accountID : string) : IO userResult :=
  GetByAccountIDWithContext s Background accountID.

(** The request body of a create: the encoding of the pointer [user]
    (a nil pointer is encoded as null). *)
Definition marshalUserPtr (user : option User.t) : JSON :=
  match user with
  | Some u => marshalUser u
  | None => JNull
  end.

(** CreateWithContext creates an user in JIRA. *)
Definition CreateWithContext (s : UserService) (ctx : Context)
           (user : option User.t) : IO (outcome userResult) :=
  let apiEndpoint := "/rest/api/2/user" in
  '(req, err) <- newRequest (client s) ctx "POST" apiEndpoint
                            (Some (marshalUserPtr user)) ;;
  match err with
  | Some e => ret (Returns (None, None, Some e))
  | None =>
      '(_, resp, err) <- doRequest (A := NoTarget) (client s) req None ;;
      match err with
      | Some e => ret (Returns (None, resp, Some e))
      | None =>
          let responseUser := User.zero in
          match resp with
          | None => ret Panics
          | Some r =>
              defer (close (Body r))
                ('(data, err) <- readAll (Body r) ;;
                 match err with
                 | Some _ =>
                     let e := Errorf "could not read the returned data" in
                     ret (Returns (None, resp, Some (NewJiraError resp e)))
                 | None =>
                     let '(responseUser, err) := json_Unmarshal data responseUser in
                     match err with
                     | Some _ =>
                         let e := Errorf "could not unmarshall the data into struct" in
                         ret (Returns (None, resp, Some (NewJiraError resp e)))
                     | None => ret (Returns (Some responseUser, resp, None))
                     end
                 end)
          end
      end
  end.

(** Create wraps CreateWithContext using the background context. *)
Definition Create (s : UserService) (user : option User.t)
  : IO (outcome userResult) :=
  CreateWithContext s Background user.

(** DeleteWithContext deletes an user from JIRA. *)
Definition DeleteWithContext (s : UserService) (ctx : Context) (username : string)
  : IO deleteResult :=
  let apiEndpoint := "/rest/api/2/user?username=" ++ username in
  '(req, err) <- newRequest (client s) ctx "DELETE" apiEndpoint None ;;
  match err with
  | Some e => ret (None, Some e)
  | None =>
      '(_, resp, err) <- doRequest (A := NoTarget) (client s) req None ;;
      match err with
      | Some e => ret (resp, Some (NewJiraError resp e))
      | None => ret (resp, None)
      end
  end.

(** Delete wraps DeleteWithContext using the background context. *)
Definition Delete (s : UserService) (username : string) : IO deleteResult :=
  DeleteWithContext s Background username.

(** GetGroupsWithContext returns the groups which the user belongs to. *)
Definition GetGroupsWithContext (s : UserService) (ctx : Context)
           (username : string) : IO groupsResult :=
  let apiEndpoint := "/rest/api/2/user/groups?username=" ++ username in
  '(req, err) <- newRequest (client s) ctx "GET" apiEndpoint None ;;
  match err with
  | Some e => ret (None, None, Some e)
  | None =>
      let userGroups : list UserGroup.t := [] in
      '(userGroups, resp, err) <- doRequest (client s) req (Some userGroups) ;;
      match err with
      | Some e => ret (None, resp, Some (NewJiraError resp e))
      | None => ret (userGroups, resp, None)
      end
  end.

(** GetGroups wraps GetGroupsWithContext using the background context. *)
Definition GetGroups (s : UserService) (username : string) : IO groupsResult :=
  GetGroupsWithContext s Background username.

(** GetSelfWithContext information about the current logged-in user. *)
Definition GetSelfWithContext (s : UserService) (ctx : Context) : IO userResult :=
  let apiEndpoint := "rest/api/2/myself" in
  '(req, err) <- newRequest (client s) ctx "GET" apiEndpoint None ;;
  match err with
  | Some e => ret (None, None, Some e)
  | None =>
      let user := User.zero in
      '(user, resp, err) <- doRequest (client s) req (Some user) ;;
      match err with
      | Some e => ret (None, resp, Some (NewJiraError resp e))
      | None => ret (user, resp, None)
      end
  end.

(** GetSelf wraps GetSelfWithContext using the background context. *)
Definition GetSelf (s : UserService) : IO userResult :=
  GetSelfWithContext s Background.

(** FindWithContext searches for user info from JIRA: it can find users
    by email, username or name. *)
Definition FindWithContext (s : UserService) (ctx : Context) (property : string)
           (tweaks : list userSearchF) : IO (outcome usersResult) :=
  match findEndpoint property tweaks with
  | Panics => ret Panics
  | Returns apiEndpoint =>
      '(req, err) <- newRequest (client s) ctx "GET" apiEndpoint None ;;
      match err with
      | Some e => ret (Returns (None, None, Some e))
      | None =>
          let users : list User.t := [] in
          '(users, resp, err) <- doRequest (client s) req (Some users) ;;
          match err with
          | Some e => ret (Returns (None, resp, Some (NewJiraError resp e)))
          | None => ret (Returns (users, resp, None))
          end
      end
  end.

(** Find wraps FindWithContext using the background context. *)
Definition Find (s : UserService) (property : string) (tweaks : list userSearchF)
  : IO (outcome usersResult) :=
  FindWithContext s Background property tweaks.

End Service.

(** ** Reference notions the statements below compare the code with *)

(** The four search options a caller can pass, and the query parameter
    the spec pairs with each: max-results=N, start-at=N, active=bool and
    inactive=bool under their wire names. *)
Inductive searchOption : Type :=
| MaxResults (n : Z)
| StartAt (n : Z)
| Active (b : bool)
| Inactive (b : bool).

Definition tweakOf (o : searchOption) : userSearchF :=
  match o with
  | MaxResults n => WithMaxResults n
  | StartAt n => WithStartAt n
  | Active b => WithActive b
  | Inactive b => WithInactive b
  end.

Definition paramOf (o : searchOption) : userSearchParam :=
  match o with
  | MaxResults n => {| name := "maxResults"; value := fmt_d n |}
  | StartAt n => {| name := "startAt"; value := fmt_d n |}
  | Active b => {| name := "includeActive"; value := fmt_t b |}
  | Inactive b => {| name := "includeInactive"; value := fmt_t b |}
  end.

(** A parameter as it stands in a query string, and the parameters after
    the first, each behind its separator. *)
Definition renderParam (p : userSearchParam) : string :=
  name p ++ "=" ++ value p.

Fixpoint renderMore (ps : list userSearchParam) : string :=
  match ps with
  | [] => ""
  | p :: rest => "&" ++ renderParam p ++ renderMore rest
  end.

(** The query string of a URL: what follows the first question mark. *)
Fixpoint queryOf (urlStr : string) : string :=
  match urlStr with
  | EmptyString => ""
  | String c rest => if (c =? "?")%char then rest else queryOf rest
  end.

(** A string split at the first occurrence of a separator byte. *)
Fixpoint cut (sep : ascii) (s : string) : string * option string :=
  match s with
  | EmptyString => ("", None)
  | String c rest =>
      if (c =? sep)%char then ("", Some rest)
      else let '(before, after) := cut sep rest in (String c before, after)
  end.

(** The pieces of a string between the occurrences of a separator byte. *)
Fixpoint splitOn (sep : ascii) (s : string) : list string :=
  match s with
  | EmptyString => [""]
  | String c rest =>
      if (c =? sep)%char then "" :: splitOn sep rest
      else match splitOn sep rest with
           | [] => [String c ""]
           | piece :: pieces => String c piece :: pieces
           end
  end.

(** The parameters a server reads off a query string: the pieces between
    ampersands, each split at its first equals sign. *)
Definition queryParams (query : string) : list (string * string) :=
  map (fun piece =>
         let '(k, v) := cut "=" piece in
         (k, match v with Some v => v | None => "" end))
      (splitOn "&" query).

(** Percent-encoding of a query component (url.QueryEscape): letters,
    digits, hyphen, underscore, period and tilde stand for themselves, a
    space becomes a plus sign, any other byte becomes a percent sign and
    two upper-case hexadecimal digits. *)
Definition unreserved (c : ascii) : bool :=
  let n := nat_of_ascii c in
  (((48 <=? n) && (n <=? 57)) || ((65 <=? n) && (n <=? 90))
   || ((97 <=? n) && (n <=? 122))
   || (n =? 45) || (n =? 95) || (n =? 46) || (n =? 126))%nat.

Definition hexDigit (n : nat) : ascii :=
  if (n <? 10)%nat then ascii_of_nat (48 + n) else ascii_of_nat (55 + n).

Fixpoint QueryEscape (s : string) : string :=
  match s with
  | EmptyString => ""
  | String c rest =>
      if unreserved c then String c (QueryEscape rest)
      else if (c =? " ")%char then String "+" (QueryEscape rest)
      else let n := nat_of_ascii c in
           String "%" (String (hexDigit (n / 16)) (String (hexDigit (n mod 16))
                                                          (QueryEscape rest)))
  end.

(** The test encoding/json makes of a field tagged omitempty. *)
Definition isEmptyValue (f : User.field) (u : User.t) : bool :=
  match f with
  | User.FSelf => User.Self u =? ""
  | User.FAccountID => User.AccountID u =? ""
  | User.FAccountType => User.AccountType u =? ""
  | User.FName => User.Name u =? ""
  | User.FKey => User.Key u =? ""
  | User.FEmailAddress => User.EmailAddress u =? ""
  | User.FAvatarUrls => false
  | User.FDisplayName => User.DisplayName u =? ""
  | User.FActive => negb (User.Active u)
  | User.FTimeZone => User.TimeZone u =? ""
  | User.FLocale => User.Locale u =? ""
  | User.FApplicationKeys => (List.length (User.ApplicationKeys u) =? 0)%nat
  end.

(** The number of times a call closes a response body. *)
Definition closes (t : trace) : nat :=
  List.length (filter (fun e => match e with CloseCall _ => true | _ => false end) t).

(** The number of HTTP exchanges a call attempts. *)
Definition exchanges (t : trace) : nat :=
  List.length (filter (fun e => match e with DoCall _ => true | _ => false end) t).

(** An error wrapped with response context is one [NewJiraError] made. *)
Definition wrapped (e : error) : bool :=
  match e with
  | JiraErr _ _ => true
  | _ => false
  end.

(** ** Scripted collaborators *)

(** A client that answers as a test would script it: the request builder
    fails with [buildError] when given one, the executor hands back
    [answer] and decodes [document] into a target when it reports no
    error. *)
Definition scriptedClient (buildError : option error)
           (answer : option Response * option error)
           (document : option JSON) : Client := {|
  NewRequestWithContext := fun ctx method urlStr body =>
    match buildError with
    | Some e => (None, Some e)
    | None => (Some {| reqCtx := ctx; reqMethod := method;
                       reqURL := urlStr; reqBody := body |}, None)
    end;
  Do := fun A U req v =>
    match snd answer, v, document with
    | None, Some a, Some j =>
        let '(a', e) := unmarshalJSON j a in (Some a', fst answer, e)
    | _, _, _ => (v, fst answer, snd answer)
    end
|}.

(** A parser that knows the documents of a fixture and rejects every
    other input. *)
Definition fixtureParse (fixture : list (string * JSON)) (data : string)
  : option JSON :=
  option_map snd (find (fun d => fst d =? data) fixture).

(** ** Further reference notions *)

(** The keys of the members of an object, in document order. *)
Definition topKeys (j : JSON) : list string :=
  match j with
  | JObject ms => map fst ms
  | _ => []
  end.

(** A byte occurs in a string. *)
Fixpoint occurs (c : ascii) (s : string) : bool :=
  match s with
  | EmptyString => false
  | String x rest => (x =? c)%char || occurs c rest
  end.


(** A parameter that cannot break a query string: no ampersand in its
    name or value, no equals sign in its name. *)
Definition plain (p : userSearchParam) : bool :=
  negb (occurs "&" (name p)) && negb (occurs "&" (value p))
  && negb (occurs "=" (name p)).

(** A query parameter as a server reads it. *)
Definition pairOf (p : userSearchParam) : string * string := (name p, value p).

(** The value a call returns beside its response and its error. *)
Definition valueOf {A : Type} (r : option A * option Response * option error)
  : option A := fst (fst r).

Definition responseOf {A : Type} (r : option A * option Response * option error)
  : option Response := snd (fst r).

Definition errorOf {A : Type} (r : option A * option Response * option error)
  : option error := snd r.

(** The calls of an operation that builds one request without a body and
    executes it when it could be built. *)
Definition singleExchange (c : Client) (ctx : Context) (method urlStr : string)
  : trace :=
  NewRequestCall ctx method urlStr None
  :: match NewRequestWithContext c ctx method urlStr None with
     | (_, Some _) => []
     | (req, None) => [DoCall req]
     end.

(** The number of calls a trace makes on a response body. *)
Definition bodyCalls (t : trace) : nat :=
  List.length (filter (fun e => match e with
                                | ReadAllCall _ | CloseCall _ => true
                                | _ => false
                                end) t).

(** ** Fixtures *)

Definition quoted (s : string) : string :=
  String (ascii_of_nat 34) s ++ String (ascii_of_nat 34) "".

(** A response body that sends back a password next to a name. *)
Definition bobDocument : JSON :=
  JObject [("name", JString "bob"); ("password", JString "hunter2")].

Definition bobText : string :=
  "{" ++ quoted "name" ++ ":" ++ quoted "bob" ++ ","
      ++ quoted "password" ++ ":" ++ quoted "hunter2" ++ "}".

Definition fixture : list (string * JSON) := [(bobText, bobDocument)].

Definition alice : User.t :=
  User.Build "" "" "" "alice" "" "secret" "alice@example.com" AvatarUrls.zero
             "Alice" true "" "" [].

Definition bob : User.t :=
  User.Build "" "" "" "bob" "" "" "" AvatarUrls.zero "" false "" "" [].


Definition createdBob : Response :=
  {| Status := "201 Created"; StatusCode := 201;
     Body := {| content := bobText; failure := None |} |}.

Definition createdEmpty : Response :=
  {| Status := "201 Created"; StatusCode := 201;
     Body := {| content := ""; failure := None |} |}.

Definition unavailable : Response :=
  {| Status := "503 Service Unavailable"; StatusCode := 503;
     Body := {| content := "maintenance"; failure := None |} |}.

Definition serverSaysBob : UserService :=
  {| client := scriptedClient None (Some createdBob, None) (Some bobDocument) |}.

Definition serverSaysNothing : UserService :=
  {| client := scriptedClient None (Some createdEmpty, None) None |}.

Definition serverUnavailable : UserService :=
  {| client := scriptedClient None
                 (Some unavailable, Some (Errorf "request failed")) None |}.

Definition cannotBuild : UserService :=
  {| client := scriptedClient (Some (Errorf "invalid URL escape"))
                 (None, None) None |}.

(** A server that answers a create with the encoding of [u]. *)
Definition echoText : string := "echo".

Definition echoed (u : User.t) : Response :=
  {| Status := "201 Created"; StatusCode := 201;
     Body := {| content := echoText; failure := None |} |}.

Definition serverEchoes (u : User.t) : UserService :=
  {| client := scriptedClient None (Some (echoed u), None) None |}.

Definition echoParse (u : User.t) : string -> option JSON :=
  fixtureParse [(echoText, marshalUser u)].

(** * Properties *)

(** ** Strings *)

Lemma append_assoc (a b c : string) : (a ++ b) ++ c = a ++ b ++ c.
Proof.
  induction a as [|x a IH]; simpl; [reflexivity | now rewrite IH].
Qed.

Lemma append_inj_l (a b c : string) : a ++ b = a ++ c -> b = c.
Proof.
  induction a as [|x a IH]; simpl; intros H; [exact H|].
  injection H as H. exact (IH H).
Qed.

Lemma append_nil_r (a : string) : a ++ "" = a.
Proof.
  induction a as [|x a IH]; simpl; [reflexivity | now rewrite IH].
Qed.

Lemma length_append (a b : string) :
  String.length (a ++ b) = (String.length a + String.length b)%nat.
Proof.
  induction a as [|x a IH]; simpl; [reflexivity | now rewrite IH].
Qed.

Lemma substring_prefix (a b : string) :
  substring 0 (String.length a) (a ++ b) = a.
Proof.
  induction a as [|x a IH]; simpl.
  - now destruct b.
  - now rewrite IH.
Qed.

(** Cutting the last byte off a string that ends in one more byte. *)
Lemma sliceTo_drop_last (a : string) (c : ascii) :
  sliceTo (a ++ String c "") (Z.of_nat (String.length (a ++ String c "")) - 1)
  = Returns a.
Proof.
  unfold sliceTo. rewrite length_append. simpl String.length.
  replace (Z.of_nat (String.length a + 1) - 1)%Z with (Z.of_nat (String.length a))
    by lia.
  rewrite Nat2Z.id, substring_prefix.
  replace ((0 <=? Z.of_nat (String.length a))%Z
           && (Z.of_nat (String.length a) <=? Z.of_nat (String.length a + 1))%Z)
    with true; [reflexivity|].
  symmetry. apply andb_true_iff. split; apply Z.leb_le; lia.
Qed.

(** ** The search parameters *)

Lemma tweakOf_appends (o : searchOption) (s : userSearch) :
  tweakOf o s = (s ++ [paramOf o])%list.
Proof. destruct o; reflexivity. Qed.

Lemma fold_tweaks (os : list searchOption) (s : userSearch) :
  fold_left (fun search f => f search) (map tweakOf os) s
  = (s ++ map paramOf os)%list.
Proof.
  revert s. induction os as [|o os IH]; intros s; simpl.
  - now rewrite app_nil_r.
  - rewrite IH, tweakOf_appends, <- app_assoc. reflexivity.
Qed.

Lemma applyTweaks_options (property : string) (os : list searchOption) :
  applyTweaks property (map tweakOf os)
  = {| name := "username"; value := property |} :: map paramOf os.
Proof. unfold applyTweaks. now rewrite fold_tweaks. Qed.

(** The second loop, started on a query string that already ends in its
    separator. *)
Lemma fold_params (ps : list userSearchParam) (q : string) :
  fold_left (fun queryString param =>
               queryString ++ name param ++ "=" ++ value param ++ "&")
            ps (q ++ "&")
  = (q ++ renderMore ps) ++ "&".
Proof.
  revert q. induction ps as [|p ps IH]; intros q; cbn [fold_left renderMore].
  - now rewrite append_nil_r.
  - replace ((q ++ "&") ++ name p ++ "=" ++ value p ++ "&")
      with ((q ++ "&" ++ renderParam p) ++ "&")
      by (unfold renderParam; now rewrite !append_assoc).
    rewrite IH. now rewrite !append_assoc.
Qed.

Lemma writeParams_cons (p : userSearchParam) (ps : list userSearchParam) :
  writeParams (p :: ps) = (renderParam p ++ renderMore ps) ++ "&".
Proof.
  unfold writeParams. cbn [fold_left]. change ("" ++ name p) with (name p).
  replace (name p ++ "=" ++ value p ++ "&") with (renderParam p ++ "&")
    by (unfold renderParam; now rewrite !append_assoc).
  apply fold_params.
Qed.

Lemma findEndpoint_options (property : string) (os : list searchOption) :
  findEndpoint property (map tweakOf os)
  = Returns ("/rest/api/2/user/search?" ++ "username=" ++ property
             ++ renderMore (map paramOf os)).
Proof.
  unfold findEndpoint.
  rewrite applyTweaks_options, writeParams_cons, sliceTo_drop_last.
  unfold renderParam. simpl name. simpl value.
  now rewrite !append_assoc.
Qed.

(** Unfolds a call down to the trace it leaves and the values it returns. *)
Ltac run_io :=
  unfold calls, result, run, defer, close, readAll, doRequest, newRequest,
    ReadAll, bind, emit, ret; cbn [fst snd app].

(** C3: find/search with no modifiers asks for the search endpoint with the
    query string username=<property> and nothing else; with a list of
    modifiers, the query string is that parameter followed by one
    parameter per modifier, in the order the caller gave them, each behind
    a separator; this is the URL the GET request is built with; and
    Find(ctx, jdoe, WithMaxResults(10), WithActive(true)) produces
    username=jdoe&maxResults=10&includeActive=true. *)
Theorem C3_find_query_string :
  forall (s : UserService) (ctx : Context) (property : string)
         (os : list searchOption),
    findEndpoint property []
    = Returns ("/rest/api/2/user/search?" ++ "username=" ++ property)
    /\ findEndpoint property (map tweakOf os)
       = Returns ("/rest/api/2/user/search?" ++ "username=" ++ property
                  ++ renderMore (map paramOf os))
    /\ queryOf ("/rest/api/2/user/search?" ++ "username=" ++ property
                ++ renderMore (map paramOf os))
       = "username=" ++ property ++ renderMore (map paramOf os)
    /\ (exists rest : trace,
          calls (FindWithContext s ctx property (map tweakOf os))
          = NewRequestCall ctx "GET"
              ("/rest/api/2/user/search?" ++ "username=" ++ property
               ++ renderMore (map paramOf os)) None :: rest)
    /\ findEndpoint "jdoe" [WithMaxResults 10; WithActive true]
       = Returns "/rest/api/2/user/search?username=jdoe&maxResults=10&includeActive=true".
Proof.
  intros s ctx property os.
  split; [|split; [|split; [|split]]].
  - change (@nil userSearchF) with (map tweakOf []).
    rewrite findEndpoint_options. cbn [map renderMore].
    now rewrite append_nil_r.
  - apply findEndpoint_options.
  - reflexivity.
  - unfold FindWithContext. rewrite findEndpoint_options. run_io.
    destruct (NewRequestWithContext (client s) ctx "GET" _ None) as [req [e|]];
      cbn [fst snd app].
    + eexists. reflexivity.
    + destruct (Do (client s) (list User.t) unmarshalUsers req (Some []))
        as [[users resp] [e|]]; eexists; reflexivity.
  - reflexivity.
Qed.

(** C4: each of WithMaxResults, WithStartAt, WithActive and WithInactive
    returns the search it is given with one more (name, value) pair at the
    end, every earlier pair kept as it was; so two modifiers, also two of
    the same name, both show in the query string, the earlier one first. *)
Theorem C4_modifiers_append :
  forall (search : userSearch) (n : Z) (b : bool) (property : string)
         (o1 o2 : searchOption),
    WithMaxResults n search
    = (search ++ [{| name := "maxResults"; value := fmt_d n |}])%list
    /\ WithStartAt n search
       = (search ++ [{| name := "startAt"; value := fmt_d n |}])%list
    /\ WithActive b search
       = (search ++ [{| name := "includeActive"; value := fmt_t b |}])%list
    /\ WithInactive b search
       = (search ++ [{| name := "includeInactive"; value := fmt_t b |}])%list
    /\ findEndpoint property [tweakOf o1; tweakOf o2]
       = Returns ("/rest/api/2/user/search?" ++ "username=" ++ property
                  ++ "&" ++ renderParam (paramOf o1)
                  ++ "&" ++ renderParam (paramOf o2))
    /\ findEndpoint "jdoe" [WithMaxResults 5; WithMaxResults 10]
       = Returns "/rest/api/2/user/search?username=jdoe&maxResults=5&maxResults=10"
    /\ findEndpoint "jdoe" [WithActive true; WithActive false]
       = Returns "/rest/api/2/user/search?username=jdoe&includeActive=true&includeActive=false".
Proof.
  intros search n b property o1 o2. repeat split.
  change [tweakOf o1; tweakOf o2] with (map tweakOf [o1; o2]).
  rewrite findEndpoint_options. cbn [map renderMore].
  now rewrite append_nil_r.
Qed.

(** ** The JSON mapping of User *)

Lemma allKeys_object_app (a b : list member) :
  allKeys (JObject (a ++ b)) = (allKeys (JObject a) ++ allKeys (JObject b))%list.
Proof.
  induction a as [|[k v] a IH]; [reflexivity|].
  cbn [allKeys app] in *. rewrite IH. now rewrite <- app_assoc.
Qed.

(** No key of an encoded User is the word password, whatever the case of
    its letters. *)
Definition notPassword (k : string) : bool := negb (equalFold k "password").

Lemma omitemptyString_keys (key v : string) :
  notPassword key = true ->
  forallb notPassword (allKeys (JObject (omitemptyString key v))) = true.
Proof.
  intros H. unfold omitemptyString. destruct (v =? ""); cbn; [reflexivity|].
  now rewrite H.
Qed.

Lemma allKeys_strings (l : list string) :
  flat_map allKeys (map JString l) = [].
Proof. induction l as [|x l IH]; [reflexivity | exact IH]. Qed.

Lemma marshalAvatarUrls_keys (a : AvatarUrls.t) :
  forallb notPassword (allKeys (marshalAvatarUrls a)) = true.
Proof.
  unfold marshalAvatarUrls. cbn [flat_map AvatarUrls.fields].
  rewrite !allKeys_object_app, !forallb_app, !omitemptyString_keys;
    reflexivity.
Qed.

Lemma marshalUser_keys (u : User.t) :
  forallb notPassword (allKeys (marshalUser u)) = true.
Proof.
  unfold marshalUser. cbn [flat_map User.fields marshalUserField].
  rewrite !allKeys_object_app, !forallb_app, !omitemptyString_keys
    by reflexivity.
  cbn [andb].
  assert (Ha : forallb notPassword
                 (allKeys (JObject [(User.jsonName User.FAvatarUrls,
                                     marshalAvatarUrls (User.AvatarUrls u))]))
               = true).
  { cbn [allKeys]. rewrite app_nil_r. cbn [forallb].
    rewrite marshalAvatarUrls_keys. reflexivity. }
  rewrite Ha. cbn [andb].
  unfold omitemptyBool, omitemptyStrings.
  destruct (User.Active u), (User.ApplicationKeys u) as [|k ks];
    cbn [allKeys]; rewrite ?allKeys_strings; reflexivity.
Qed.

(** The encoding does not read the Password field. *)
Lemma marshalUser_withPassword (p : string) (u : User.t) :
  marshalUser (User.withPassword p u) = marshalUser u.
Proof. reflexivity. Qed.

(** No store writes the Password field. *)
Lemma storeUserField_password (f : User.field) (j : JSON) (u : User.t) :
  User.Password (fst (storeUserField f j u)) = User.Password u.
Proof.
  destruct u as [self accountId accountType nm ky password email
                 avatars displayName active timeZone locale appKeys].
  destruct f; cbn [storeUserField];
    match goal with
    | |- context [storeString ?k ?j ?o] => destruct (storeString k j o)
    | |- context [storeBool ?k ?j ?o] => destruct (storeBool k j o)
    | |- context [unmarshalAvatarUrls ?j ?o] => destruct (unmarshalAvatarUrls j o)
    | |- context [storeSlice ?z ?st ?k ?j ?o] => destruct (storeSlice z st k j o)
    end; reflexivity.
Qed.

Lemma storeMember_password (acc : User.t * option error) (m : member) :
  User.Password (fst (storeMember User.jsonName User.fields storeUserField acc m))
  = User.Password (fst acc).
Proof.
  destruct acc as [u err]. unfold storeMember.
  destruct (fieldByKey User.jsonName User.fields (fst m)) as [f|]; [|reflexivity].
  pose proof (storeUserField_password f (snd m) u) as H.
  destruct (storeUserField f (snd m) u) as [u' e]. exact H.
Qed.

Lemma unmarshalUser_password (j : JSON) (u : User.t) :
  User.Password (fst (unmarshalUser j u)) = User.Password u.
Proof.
  unfold unmarshalUser, storeStruct. destruct j; try reflexivity.
  change u with (fst (u, @None error)) at 2.
  generalize (u, @None error) as acc.
  induction members as [|m ms IH]; intros acc; cbn [fold_left]; [reflexivity|].
  rewrite IH. apply storeMember_password.
Qed.

(** Decoding an omitted member and decoding the empty value into a field
    that is still empty give the same result: a store of one member. *)
Section OmittedMembers.
Context {T F : Type} (nameOf : F -> string) (fields : list F)
        (storeField : F -> JSON -> T -> T * option error).

Let step := storeMember nameOf fields storeField.

Lemma store_omitemptyString (key v : string) (acc : T * option error) :
  fold_left step [(key, JString "")] acc = acc ->
  fold_left step (omitemptyString key v) acc
  = fold_left step [(key, JString v)] acc.
Proof.
  intros H. unfold omitemptyString.
  destruct (String.eqb_spec v "") as [->|_]; [now rewrite H | reflexivity].
Qed.

Lemma store_omitemptyBool (key : string) (b : bool) (acc : T * option error) :
  fold_left step [(key, JBool false)] acc = acc ->
  fold_left step (omitemptyBool key b) acc
  = fold_left step [(key, JBool b)] acc.
Proof.
  intros H. destruct b; [reflexivity | now rewrite H].
Qed.

Lemma store_omitemptyStrings (key : string) (l : list string)
      (acc : T * option error) :
  fold_left step [(key, JArray [])] acc = acc ->
  fold_left step (omitemptyStrings key l) acc
  = fold_left step [(key, JArray (map JString l))] acc.
Proof.
  intros H. destruct l; [exact (eq_sym H) | reflexivity].
Qed.

End OmittedMembers.

Lemma storeElements_strings (key : string) (l old : list string) :
  storeElements "" (storeString key) (map JString l) old = (l, None).
Proof.
  revert old. induction l as [|x l IH]; intros old; cbn; [reflexivity|].
  now rewrite IH.
Qed.

(** Decodes the innermost omitempty member of a chain of stores that
    starts from an explicit accumulator. *)
Ltac decode_piece :=
  match goal with
  | |- context [fold_left ?st (omitemptyString ?k ?v) (?a, ?e)] =>
      rewrite (store_omitemptyString _ _ _ k v (a, e)) by reflexivity;
      let r := eval cbv in (fold_left st [(k, JString v)] (a, e)) in
      change (fold_left st [(k, JString v)] (a, e)) with r
  | |- context [fold_left ?st (omitemptyBool ?k ?b) (?a, ?e)] =>
      rewrite (store_omitemptyBool _ _ _ k b (a, e)) by reflexivity;
      let r := eval cbv in (fold_left st [(k, JBool b)] (a, e)) in
      change (fold_left st [(k, JBool b)] (a, e)) with r
  end.

Lemma avatarUrls_round_trip (a : AvatarUrls.t) :
  unmarshalAvatarUrls (marshalAvatarUrls a) AvatarUrls.zero = (a, None).
Proof.
  destruct a as [small medium large xlarge].
  unfold unmarshalAvatarUrls, marshalAvatarUrls, storeStruct.
  cbn [flat_map AvatarUrls.fields avatarField AvatarUrls.Small AvatarUrls.Medium
       AvatarUrls.Large AvatarUrls.XLarge].
  rewrite !fold_left_app. repeat decode_piece. reflexivity.
Qed.

Lemma user_round_trip (u : User.t) :
  unmarshalUser (marshalUser u) User.zero = (User.withPassword "" u, None).
Proof.
  destruct u as [self accountId accountType nm ky password email
                 avatars displayName active timeZone locale appKeys].
  unfold unmarshalUser, marshalUser, storeStruct, User.withPassword.
  cbn [flat_map User.fields marshalUserField User.Self User.AccountID
       User.AccountType User.Name User.Key User.EmailAddress User.AvatarUrls
       User.DisplayName User.Active User.TimeZone User.Locale
       User.ApplicationKeys].
  rewrite !fold_left_app. repeat decode_piece.
  match goal with
  | |- context [fold_left ?st [(?k, marshalAvatarUrls avatars)] (?a, None)] =>
      replace (fold_left st [(k, marshalAvatarUrls avatars)] (a, None))
        with (User.Build self accountId accountType nm ky "" email avatars
                         "" false "" "" [], @None error)
  end.
  2: { cbn [fold_left]. unfold storeMember. cbn [fst snd].
       change (fieldByKey User.jsonName User.fields
                          (User.jsonName User.FAvatarUrls))
         with (Some User.FAvatarUrls).
       cbn [storeUserField]. fold AvatarUrls.zero.
       now rewrite avatarUrls_round_trip. }
  repeat decode_piece.
  rewrite store_omitemptyStrings by reflexivity.
  cbn [fold_left]. unfold storeMember. cbn [fst snd].
  change (fieldByKey User.jsonName User.fields
                     (User.jsonName User.FApplicationKeys))
    with (Some User.FApplicationKeys).
  cbn [storeUserField]. unfold storeSlice.
  now rewrite storeElements_strings.
Qed.

(** ** Create: what goes out and what comes back *)

(** The results and the calls of a create, path by path. *)
Lemma create_run (parse : string -> option JSON) (s : UserService)
      (ctx : Context) (user : option User.t) :
  run (CreateWithContext parse s ctx user)
  = let body := Some (marshalUserPtr user) in
    let built := NewRequestCall ctx "POST" "/rest/api/2/user" body in
    match NewRequestWithContext (client s) ctx "POST" "/rest/api/2/user" body with
    | (_, Some e) => (Returns (None, None, Some e), [built])
    | (req, None) =>
        match Do (client s) NoTarget unmarshalNoTarget req None with
        | (_, resp, Some e) => (Returns (None, resp, Some e), [built; DoCall req])
        | (_, resp, None) =>
            match resp with
            | None => (Panics, [built; DoCall req])
            | Some r =>
                let t := [built; DoCall req; ReadAllCall (Body r);
                          CloseCall (Body r)] in
                match failure (Body r) with
                | Some _ =>
                    (Returns (None, Some r,
                              Some (NewJiraError (Some r)
                                      (Errorf "could not read the returned data"))),
                     t)
                | None =>
                    match json_Unmarshal parse (content (Body r)) User.zero with
                    | (_, Some _) =>
                        (Returns (None, Some r,
                                  Some (NewJiraError (Some r)
                                          (Errorf "could not unmarshall the data into struct"))),
                         t)
                    | (responseUser, None) =>
                        (Returns (Some responseUser, Some r, None), t)
                    end
                end
            end
        end
    end.
Proof.
  unfold CreateWithContext. run_io.
  destruct (NewRequestWithContext (client s) ctx "POST" "/rest/api/2/user"
                                  (Some (marshalUserPtr user))) as [req [e|]];
    cbn [fst snd app]; [reflexivity|].
  destruct (Do (client s) NoTarget unmarshalNoTarget req None)
    as [[v resp] [e|]]; cbn [fst snd app]; [reflexivity|].
  destruct resp as [r|]; cbn [fst snd app]; [|reflexivity].
  destruct (failure (Body r)); cbn [fst snd app]; [reflexivity|].
  destruct (json_Unmarshal parse (content (Body r)) User.zero) as [ru [e|]];
    reflexivity.
Qed.

(** The first call of a create hands the encoded user to the request
    builder. *)
Lemma create_builds_post (parse : string -> option JSON) (s : UserService)
      (ctx : Context) (user : option User.t) :
  exists rest : trace,
    calls (CreateWithContext parse s ctx user)
    = NewRequestCall ctx "POST" "/rest/api/2/user" (Some (marshalUserPtr user))
      :: rest.
Proof.
  unfold calls. rewrite create_run. cbv zeta.
  destruct (NewRequestWithContext (client s) ctx "POST" "/rest/api/2/user"
                                  (Some (marshalUserPtr user))) as [req [e|]];
    [eexists; reflexivity|].
  destruct (Do (client s) NoTarget unmarshalNoTarget req None)
    as [[v resp] [e|]]; [eexists; reflexivity|].
  destruct resp as [r|]; [|eexists; reflexivity].
  destruct (failure (Body r)); [eexists; reflexivity|].
  destruct (json_Unmarshal parse (content (Body r)) User.zero) as [ru [e|]];
    eexists; reflexivity.
Qed.

(** A create that returns a user returns the one json.Unmarshal decoded
    without error from the bytes of the response body. *)
Lemma create_returns_user_inv (parse : string -> option JSON) (s : UserService)
      (ctx : Context) (user : option User.t) (ru : User.t)
      (resp : option Response) (err : option error) :
  result (CreateWithContext parse s ctx user) = Returns (Some ru, resp, err) ->
  exists r : Response,
    resp = Some r /\ err = None /\ failure (Body r) = None
    /\ json_Unmarshal parse (content (Body r)) User.zero = (ru, None).
Proof.
  unfold result. rewrite create_run. cbv zeta.
  destruct (NewRequestWithContext (client s) ctx "POST" "/rest/api/2/user"
                                  (Some (marshalUserPtr user))) as [req [e|]];
    cbn [fst]; [discriminate|].
  destruct (Do (client s) NoTarget unmarshalNoTarget req None)
    as [[v resp'] [e|]]; cbn [fst]; [discriminate|].
  destruct resp' as [r|]; cbn [fst]; [|discriminate].
  destruct (failure (Body r)) eqn:Hf; cbn [fst]; [discriminate|].
  destruct (json_Unmarshal parse (content (Body r)) User.zero) as [u [e|]] eqn:Hu;
    cbn [fst]; [discriminate|].
  intros H. inversion H; subst. exists r. repeat split; assumption.
Qed.

(** A create that returns no error returns a user. *)
Lemma create_nil_error_inv (parse : string -> option JSON) (s : UserService)
      (ctx : Context) (user : option User.t) (ru : option User.t)
      (resp : option Response) :
  result (CreateWithContext parse s ctx user) = Returns (ru, resp, None) ->
  ru <> None.
Proof.
  unfold result. rewrite create_run. cbv zeta.
  destruct (NewRequestWithContext (client s) ctx "POST" "/rest/api/2/user"
                                  (Some (marshalUserPtr user))) as [req [e|]];
    cbn [fst]; [discriminate|].
  destruct (Do (client s) NoTarget unmarshalNoTarget req None)
    as [[v resp'] [e|]]; cbn [fst]; [discriminate|].
  destruct resp' as [r|]; cbn [fst]; [|discriminate].
  destruct (failure (Body r)); cbn [fst]; [discriminate|].
  destruct (json_Unmarshal parse (content (Body r)) User.zero) as [u [e|]];
    cbn [fst]; [discriminate|].
  intros H. inversion H. discriminate.
Qed.

Lemma json_Unmarshal_password (parse : string -> option JSON) (data : string)
      (u : User.t) :
  User.Password (fst (json_Unmarshal parse data u)) = User.Password u.
Proof.
  unfold json_Unmarshal. destruct (parse data) as [j|]; [|reflexivity].
  apply unmarshalUser_password.
Qed.

(** C1: the body a create hands to the request builder is the encoding of
    the user under its JSON tags; no key of that document, at any depth, is
    the word password in any case of its letters; the encoding, and with it
    the whole create call, is the same for two users that differ only in
    Password (one obtained from the other by setting Password, or two that
    agree once Password is cleared); and a user a create returns has the empty Password, whatever
    bytes the server sent and whatever document they denote. *)
Theorem C1_password_never_serialized :
  forall (parse : string -> option JSON) (s : UserService) (ctx : Context)
         (u : User.t) (p : string),
    (exists rest : trace,
       calls (CreateWithContext parse s ctx (Some u))
       = NewRequestCall ctx "POST" "/rest/api/2/user" (Some (marshalUser u))
         :: rest)
    /\ (forall k : string,
          In k (allKeys (marshalUser u)) -> equalFold k "password" = false)
    /\ marshalUser (User.withPassword p u) = marshalUser u
    /\ (forall u' : User.t,
          User.withPassword "" u' = User.withPassword "" u ->
          marshalUser u' = marshalUser u)
    /\ CreateWithContext parse s ctx (Some (User.withPassword p u))
       = CreateWithContext parse s ctx (Some u)
    /\ (forall (ru : User.t) (resp : option Response) (err : option error),
          result (CreateWithContext parse s ctx (Some u))
          = Returns (Some ru, resp, err) ->
          User.Password ru = "").
Proof.
  intros parse s ctx u p. split; [|split; [|split; [|split; [|split]]]].
  - exact (create_builds_post parse s ctx (Some u)).
  - intros k Hk. pose proof (marshalUser_keys u) as H.
    rewrite forallb_forall in H. specialize (H k Hk).
    unfold notPassword in H. now apply negb_true_iff in H.
  - apply marshalUser_withPassword.
  - intros u' E.
    rewrite <- (marshalUser_withPassword "" u'), <- (marshalUser_withPassword "" u).
    now rewrite E.
  - reflexivity.
  - intros ru resp err H.
    destruct (create_returns_user_inv parse s ctx (Some u) ru resp err H)
      as (r & _ & _ & _ & Hu).
    pose proof (json_Unmarshal_password parse (content (Body r)) User.zero) as Hp.
    rewrite Hu in Hp. exact Hp.
Qed.

(** C5: when the request was built and executed without error, a create
    whose response body cannot be read returns the wrapped read failure, and
    one whose body is not a JSON document, or is one that does not fit a
    User, returns the wrapped decode failure, each with a nil user and the
    response; an empty body is such a decode failure, since the empty input
    denotes no document; the two errors differ from each other; and a create
    that returns a nil error returns a user, never nil. *)
Theorem C5_create_body_failures :
  forall (parse : string -> option JSON) (s : UserService) (ctx : Context)
         (user : option User.t) (req : option Request) (v : option NoTarget)
         (r : Response),
    NewRequestWithContext (client s) ctx "POST" "/rest/api/2/user"
                          (Some (marshalUserPtr user)) = (req, None) ->
    Do (client s) NoTarget unmarshalNoTarget req None = (v, Some r, None) ->
    let readFailure :=
      NewJiraError (Some r) (Errorf "could not read the returned data") in
    let decodeFailure :=
      NewJiraError (Some r) (Errorf "could not unmarshall the data into struct") in
    (failure (Body r) <> None ->
     result (CreateWithContext parse s ctx user)
     = Returns (None, Some r, Some readFailure))
    /\ (failure (Body r) = None ->
        snd (json_Unmarshal parse (content (Body r)) User.zero) <> None ->
        result (CreateWithContext parse s ctx user)
        = Returns (None, Some r, Some decodeFailure))
    /\ (failure (Body r) = None -> content (Body r) = "" -> parse "" = None ->
        result (CreateWithContext parse s ctx user)
        = Returns (None, Some r, Some decodeFailure))
    /\ readFailure <> decodeFailure
    /\ wrapped readFailure = true /\ wrapped decodeFailure = true
    /\ (forall (ru : option User.t) (resp : option Response),
          result (CreateWithContext parse s ctx user) = Returns (ru, resp, None) ->
          ru <> None).
Proof.
  intros parse s ctx user req v r Hbuild Hdo readFailure decodeFailure.
  assert (Hdecode :
            failure (Body r) = None ->
            snd (json_Unmarshal parse (content (Body r)) User.zero) <> None ->
            result (CreateWithContext parse s ctx user)
            = Returns (None, Some r, Some decodeFailure)).
  { intros Hf Hu. unfold result. rewrite create_run. cbv zeta.
    rewrite Hbuild, Hdo, Hf.
    destruct (json_Unmarshal parse (content (Body r)) User.zero) as [u [e|]];
      [reflexivity | now contradiction Hu]. }
  split; [|split; [|split; [|split; [|split; [|split]]]]].
  - intros Hf. unfold result. rewrite create_run. cbv zeta.
    rewrite Hbuild, Hdo. destruct (failure (Body r)); [reflexivity|].
    now contradiction Hf.
  - exact Hdecode.
  - intros Hf Hempty Hparse. apply Hdecode; [exact Hf|].
    unfold json_Unmarshal. rewrite Hempty, Hparse. discriminate.
  - discriminate.
  - reflexivity.
  - reflexivity.
  - intros ru resp. apply create_nil_error_inv.
Qed.

(** C9, as the code has it: once the request was built and the executor
    returned a response and no error, a create reads the body and closes it
    exactly once, as its last call, on each of its three exits: the read
    failure, the decode failure and the success. *)
Theorem C9_create_closes_body_after_success :
  forall (parse : string -> option JSON) (s : UserService) (ctx : Context)
         (user : option User.t) (req : option Request) (v : option NoTarget)
         (r : Response),
    NewRequestWithContext (client s) ctx "POST" "/rest/api/2/user"
                          (Some (marshalUserPtr user)) = (req, None) ->
    Do (client s) NoTarget unmarshalNoTarget req None = (v, Some r, None) ->
    calls (CreateWithContext parse s ctx user)
    = [NewRequestCall ctx "POST" "/rest/api/2/user" (Some (marshalUserPtr user));
       DoCall req; ReadAllCall (Body r); CloseCall (Body r)]
    /\ closes (calls (CreateWithContext parse s ctx user)) = 1%nat.
Proof.
  intros parse s ctx user req v r Hbuild Hdo.
  assert (H : calls (CreateWithContext parse s ctx user)
              = [NewRequestCall ctx "POST" "/rest/api/2/user"
                                (Some (marshalUserPtr user));
                 DoCall req; ReadAllCall (Body r); CloseCall (Body r)]).
  { unfold calls. rewrite create_run. cbv zeta. rewrite Hbuild, Hdo.
    destruct (failure (Body r)); [reflexivity|].
    destruct (json_Unmarshal parse (content (Body r)) User.zero) as [u [e|]];
      reflexivity. }
  split; [exact H | now rewrite H].
Qed.

(** ** The three exits of the single-exchange operations *)

(** Runs an operation down to its exits, the results of its collaborators
    taken from the hypotheses. *)
Ltac exits :=
  run_io;
  repeat match goal with
         | H : NewRequestWithContext _ _ _ _ _ = _ |- _ =>
             rewrite H; cbn [fst snd app]
         | H : Do _ _ _ _ _ = _ |- _ => rewrite H; cbn [fst snd app]
         end;
  try reflexivity.

(** C10: in each of the seven operations, when the request builder returns
    an error, the call returns that very error with a nil result and a nil
    response, and the request builder is the only collaborator it has
    called: no request is executed. *)
Theorem C10_build_failure_returns_at_once :
  forall (parse : string -> option JSON) (s : UserService) (ctx : Context)
         (e : error),
    (forall (username : string) (req : option Request),
        NewRequestWithContext (client s) ctx "GET"
          ("/rest/api/2/user?username=" ++ username) None = (req, Some e) ->
        run (GetWithContext s ctx username)
        = ((None, None, Some e),
           [NewRequestCall ctx "GET" ("/rest/api/2/user?username=" ++ username) None]))
    /\ (forall (accountID : string) (req : option Request),
        NewRequestWithContext (client s) ctx "GET"
          ("/rest/api/2/user?accountId=" ++ accountID) None = (req, Some e) ->
        run (GetByAccountIDWithContext s ctx accountID)
        = ((None, None, Some e),
           [NewRequestCall ctx "GET" ("/rest/api/2/user?accountId=" ++ accountID) None]))
    /\ (forall (user : option User.t) (req : option Request),
        NewRequestWithContext (client s) ctx "POST" "/rest/api/2/user"
          (Some (marshalUserPtr user)) = (req, Some e) ->
        run (CreateWithContext parse s ctx user)
        = (Returns (None, None, Some e),
           [NewRequestCall ctx "POST" "/rest/api/2/user"
                           (Some (marshalUserPtr user))]))
    /\ (forall (username : string) (req : option Request),
        NewRequestWithContext (client s) ctx "DELETE"
          ("/rest/api/2/user?username=" ++ username) None = (req, Some e) ->
        run (DeleteWithContext s ctx username)
        = ((None, Some e),
           [NewRequestCall ctx "DELETE" ("/rest/api/2/user?username=" ++ username)
                           None]))
    /\ (forall (username : string) (req : option Request),
        NewRequestWithContext (client s) ctx "GET"
          ("/rest/api/2/user/groups?username=" ++ username) None = (req, Some e) ->
        run (GetGroupsWithContext s ctx username)
        = ((None, None, Some e),
           [NewRequestCall ctx "GET"
                           ("/rest/api/2/user/groups?username=" ++ username) None]))
    /\ (forall req : option Request,
        NewRequestWithContext (client s) ctx "GET" "rest/api/2/myself" None
        = (req, Some e) ->
        run (GetSelfWithContext s ctx)
        = ((None, None, Some e),
           [NewRequestCall ctx "GET" "rest/api/2/myself" None]))
    /\ (forall (property : string) (tweaks : list userSearchF)
               (apiEndpoint : string) (req : option Request),
        findEndpoint property tweaks = Returns apiEndpoint ->
        NewRequestWithContext (client s) ctx "GET" apiEndpoint None
        = (req, Some e) ->
        run (FindWithContext s ctx property tweaks)
        = (Returns (None, None, Some e),
           [NewRequestCall ctx "GET" apiEndpoint None])).
Proof.
  intros parse s ctx e.
  split; [|split; [|split; [|split; [|split; [|split]]]]].
  - intros username req H. unfold GetWithContext. exits.
  - intros accountID req H. unfold GetByAccountIDWithContext. exits.
  - intros user req H. rewrite create_run. cbv zeta. now rewrite H.
  - intros username req H. unfold DeleteWithContext. exits.
  - intros username req H. unfold GetGroupsWithContext. exits.
  - intros req H. unfold GetSelfWithContext. exits.
  - intros property tweaks apiEndpoint req Hep H. unfold FindWithContext.
    rewrite Hep. exits.
Qed.

(** C2, as the code has it: when the request was built and the executor
    returns an error, get, get-by-account-id, delete, get-groups, get-self
    and find return NewJiraError(resp, err), the error wrapped with the
    response; create returns the error of the executor as it is. *)
Theorem C2_executor_error_paths :
  forall (parse : string -> option JSON) (s : UserService) (ctx : Context)
         (resp : option Response) (e : error),
    (forall (username : string) (req : option Request) (v : option User.t),
        NewRequestWithContext (client s) ctx "GET"
          ("/rest/api/2/user?username=" ++ username) None = (req, None) ->
        Do (client s) User.t unmarshalUser req (Some User.zero)
        = (v, resp, Some e) ->
        result (GetWithContext s ctx username)
        = (None, resp, Some (NewJiraError resp e)))
    /\ (forall (accountID : string) (req : option Request) (v : option User.t),
        NewRequestWithContext (client s) ctx "GET"
          ("/rest/api/2/user?accountId=" ++ accountID) None = (req, None) ->
        Do (client s) User.t unmarshalUser req (Some User.zero)
        = (v, resp, Some e) ->
        result (GetByAccountIDWithContext s ctx accountID)
        = (None, resp, Some (NewJiraError resp e)))
    /\ (forall (username : string) (req : option Request) (v : option NoTarget),
        NewRequestWithContext (client s) ctx "DELETE"
          ("/rest/api/2/user?username=" ++ username) None = (req, None) ->
        Do (client s) NoTarget unmarshalNoTarget req None = (v, resp, Some e) ->
        result (DeleteWithContext s ctx username)
        = (resp, Some (NewJiraError resp e)))
    /\ (forall (username : string) (req : option Request)
               (v : option (list UserGroup.t)),
        NewRequestWithContext (client s) ctx "GET"
          ("/rest/api/2/user/groups?username=" ++ username) None = (req, None) ->
        Do (client s) (list UserGroup.t) unmarshalUserGroups req (Some [])
        = (v, resp, Some e) ->
        result (GetGroupsWithContext s ctx username)
        = (None, resp, Some (NewJiraError resp e)))
    /\ (forall (req : option Request) (v : option User.t),
        NewRequestWithContext (client s) ctx "GET" "rest/api/2/myself" None
        = (req, None) ->
        Do (client s) User.t unmarshalUser req (Some User.zero)
        = (v, resp, Some e) ->
        result (GetSelfWithContext s ctx)
        = (None, resp, Some (NewJiraError resp e)))
    /\ (forall (property : string) (tweaks : list userSearchF)
               (apiEndpoint : string) (req : option Request)
               (v : option (list User.t)),
        findEndpoint property tweaks = Returns apiEndpoint ->
        NewRequestWithContext (client s) ctx "GET" apiEndpoint None
        = (req, None) ->
        Do (client s) (list User.t) unmarshalUsers req (Some [])
        = (v, resp, Some e) ->
        result (FindWithContext s ctx property tweaks)
        = Returns (None, resp, Some (NewJiraError resp e)))
    /\ wrapped (NewJiraError resp e) = true
    /\ (forall (user : option User.t) (req : option Request)
               (v : option NoTarget),
        NewRequestWithContext (client s) ctx "POST" "/rest/api/2/user"
          (Some (marshalUserPtr user)) = (req, None) ->
        Do (client s) NoTarget unmarshalNoTarget req None = (v, resp, Some e) ->
        result (CreateWithContext parse s ctx user)
        = Returns (None, resp, Some e)).
Proof.
  intros parse s ctx resp e.
  split; [|split; [|split; [|split; [|split; [|split; [|split]]]]]].
  - intros username req v Hb Hd. unfold GetWithContext. exits.
  - intros accountID req v Hb Hd. unfold GetByAccountIDWithContext. exits.
  - intros username req v Hb Hd. unfold DeleteWithContext. exits.
  - intros username req v Hb Hd. unfold GetGroupsWithContext. exits.
  - intros req v Hb Hd. unfold GetSelfWithContext. exits.
  - intros property tweaks apiEndpoint req v Hep Hb Hd. unfold FindWithContext.
    rewrite Hep. exits.
  - reflexivity.
  - intros user req v Hb Hd. unfold result. rewrite create_run. cbv zeta.
    now rewrite Hb, Hd.
Qed.

(** C6, as the code has it: when the request can be built, get-by-username
    builds one GET request with no body for the user endpoint followed by
    ?username= and the username byte for byte, and executes it once; the
    query string is username= followed by the username as given, which is
    the URL-encoded form exactly when encoding leaves the username
    unchanged. *)
Theorem C6_get_embeds_username_verbatim :
  forall (s : UserService) (ctx : Context) (username : string)
         (req : option Request),
    NewRequestWithContext (client s) ctx "GET"
      ("/rest/api/2/user?username=" ++ username) None = (req, None) ->
    calls (GetWithContext s ctx username)
    = [NewRequestCall ctx "GET" ("/rest/api/2/user?username=" ++ username) None;
       DoCall req]
    /\ exchanges (calls (GetWithContext s ctx username)) = 1%nat
    /\ queryOf ("/rest/api/2/user?username=" ++ username)
       = "username=" ++ username
    /\ (QueryEscape username = username <->
        "/rest/api/2/user?username=" ++ username
        = "/rest/api/2/user?username=" ++ QueryEscape username).
Proof.
  intros s ctx username req Hb.
  assert (H : calls (GetWithContext s ctx username)
              = [NewRequestCall ctx "GET"
                   ("/rest/api/2/user?username=" ++ username) None;
                 DoCall req]).
  { unfold GetWithContext. run_io. rewrite Hb. cbn [fst snd app].
    destruct (Do (client s) User.t unmarshalUser req (Some User.zero))
      as [[v resp] [e|]]; reflexivity. }
  split; [exact H|]. split; [now rewrite H|]. split; [reflexivity|].
  split; intros E.
  - now rewrite E.
  - symmetry. exact (append_inj_l _ _ _ E).
Qed.



(** ** Concrete runs *)

(** C1 at a server that sends a password back: the user returned has none. *)
Lemma C1_server_password_dropped :
  result (CreateWithContext (fixtureParse fixture) serverSaysBob Background
                            (Some alice))
  = Returns (Some bob, Some createdBob, None)
  /\ User.Password bob = "".
Proof.
  split; [reflexivity|].
  exact (proj2 (proj2 (proj2 (proj2 (proj2
           (C1_password_never_serialized (fixtureParse fixture) serverSaysBob
                                         Background alice "other")))))
           bob (Some createdBob) None eq_refl).
Defined.

(** C2 at a server that answers 503: create hands the error of the executor
    through, get-by-username wraps it. *)
Lemma C2_unavailable_server :
  result (CreateWithContext (fixtureParse fixture) serverUnavailable Background
                            (Some alice))
  = Returns (None, Some unavailable, Some (Errorf "request failed"))
  /\ wrapped (Errorf "request failed") = false
  /\ result (GetWithContext serverUnavailable Background "jdoe")
     = (None, Some unavailable,
        Some (NewJiraError (Some unavailable) (Errorf "request failed"))).
Proof.
  pose proof (C2_executor_error_paths (fixtureParse fixture) serverUnavailable
                Background (Some unavailable) (Errorf "request failed")) as H.
  split; [|split; [reflexivity|]].
  - refine (proj2 (proj2 (proj2 (proj2 (proj2 (proj2 (proj2 H))))))
              (Some alice) _ None eq_refl eq_refl).
  - refine (proj1 H "jdoe" _ (Some User.zero) eq_refl eq_refl).
Defined.

(** C5 at a 201 response with an empty body. *)
Lemma C5_empty_body_is_a_decode_failure :
  result (CreateWithContext (fixtureParse fixture) serverSaysNothing Background
                            (Some alice))
  = Returns (None, Some createdEmpty,
             Some (NewJiraError (Some createdEmpty)
                     (Errorf "could not unmarshall the data into struct"))).
Proof.
  pose proof (C5_create_body_failures (fixtureParse fixture) serverSaysNothing
                Background (Some alice) _ None createdEmpty eq_refl eq_refl) as H.
  cbv zeta in H.
  exact (proj1 (proj2 (proj2 H)) eq_refl eq_refl eq_refl).
Defined.

(** The username a&b=c reaches the URL unescaped: the query string then
    reads as two parameters, and the URL is not the URL-encoded one. *)
Lemma C6_ampersand_splits_the_query :
  calls (GetWithContext serverSaysBob Background "a&b=c")
  = [NewRequestCall Background "GET" "/rest/api/2/user?username=a&b=c" None;
     DoCall (Some {| reqCtx := Background; reqMethod := "GET";
                     reqURL := "/rest/api/2/user?username=a&b=c";
                     reqBody := None |})]
  /\ queryParams (queryOf "/rest/api/2/user?username=a&b=c")
     = [("username", "a"); ("b", "c")]
  /\ "/rest/api/2/user?username=" ++ QueryEscape "a&b=c"
     = "/rest/api/2/user?username=a%26b%3Dc"
  /\ "/rest/api/2/user?username=a&b=c"
     <> "/rest/api/2/user?username=" ++ QueryEscape "a&b=c".
Proof.
  repeat split. discriminate.
Qed.

(** C6 at the username jdoe. *)
Lemma C6_get_jdoe :
  calls (GetWithContext serverSaysBob Background "jdoe")
  = [NewRequestCall Background "GET" "/rest/api/2/user?username=jdoe" None;
     DoCall (Some {| reqCtx := Background; reqMethod := "GET";
                     reqURL := "/rest/api/2/user?username=jdoe";
                     reqBody := None |})].
Proof.
  exact (proj1 (C6_get_embeds_username_verbatim serverSaysBob Background "jdoe"
                  _ eq_refl)).
Defined.


(** A create against a server that answers 503 with a response: the body
    of that response is never closed.  A create whose request cannot be
    built has no response to close. *)
Lemma C9_executor_error_leaves_body_open :
  run (CreateWithContext (fixtureParse fixture) serverUnavailable Background
                         (Some alice))
  = (Returns (None, Some unavailable, Some (Errorf "request failed")),
     [NewRequestCall Background "POST" "/rest/api/2/user"
                     (Some (marshalUser alice));
      DoCall (Some {| reqCtx := Background; reqMethod := "POST";
                      reqURL := "/rest/api/2/user";
                      reqBody := Some (marshalUser alice) |})])
  /\ closes (calls (CreateWithContext (fixtureParse fixture) serverUnavailable
                                      Background (Some alice))) = 0%nat
  /\ closes (calls (CreateWithContext (fixtureParse fixture) cannotBuild
                                      Background (Some alice))) = 0%nat.
Proof.
  repeat split.
Qed.

(** C9 at a 201 response. *)
Lemma C9_created_body_closed_once :
  closes (calls (CreateWithContext (fixtureParse fixture) serverSaysBob
                                   Background (Some alice))) = 1%nat.
Proof.
  exact (proj2 (C9_create_closes_body_after_success (fixtureParse fixture)
                  serverSaysBob Background (Some alice) _ None createdBob
                  eq_refl eq_refl)).
Defined.

(** C10 at a client whose request builder fails. *)
Lemma C10_cannot_build :
  run (GetWithContext cannotBuild Background "jdoe")
  = ((None, None, Some (Errorf "invalid URL escape")),
     [NewRequestCall Background "GET" "/rest/api/2/user?username=jdoe" None]).
Proof.
  exact (proj1 (C10_build_failure_returns_at_once (fixtureParse fixture)
                  cannotBuild Background (Errorf "invalid URL escape"))
           "jdoe" None eq_refl).
Defined.

(** * Further properties of user.go *)

(** ** One exchange per call *)

(** X1: get, get-by-account-id, delete, get-groups and get-self make one
    call to the request builder, with the context they were given, their
    method and their endpoint and no body, then one call to the executor if
    and only if the request could be built, and nothing else; find does the
    same once its endpoint is computed and makes no call at all when that
    computation panics.  So none of them retries, and none reads or closes
    a response body.  A create executes at most one request too. *)
Theorem X1_single_exchange :
  forall (parse : string -> option JSON) (s : UserService) (ctx : Context)
         (x : string) (tweaks : list userSearchF) (user : option User.t),
    calls (GetWithContext s ctx x)
    = singleExchange (client s) ctx "GET" ("/rest/api/2/user?username=" ++ x)
    /\ calls (GetByAccountIDWithContext s ctx x)
       = singleExchange (client s) ctx "GET" ("/rest/api/2/user?accountId=" ++ x)
    /\ calls (DeleteWithContext s ctx x)
       = singleExchange (client s) ctx "DELETE" ("/rest/api/2/user?username=" ++ x)
    /\ calls (GetGroupsWithContext s ctx x)
       = singleExchange (client s) ctx "GET"
           ("/rest/api/2/user/groups?username=" ++ x)
    /\ calls (GetSelfWithContext s ctx)
       = singleExchange (client s) ctx "GET" "rest/api/2/myself"
    /\ calls (FindWithContext s ctx x tweaks)
       = match findEndpoint x tweaks with
         | Returns apiEndpoint => singleExchange (client s) ctx "GET" apiEndpoint
         | Panics => []
         end
    /\ (forall (method urlStr : string),
           (exchanges (singleExchange (client s) ctx method urlStr) <= 1)%nat
           /\ bodyCalls (singleExchange (client s) ctx method urlStr) = 0%nat)
    /\ (exchanges (calls (CreateWithContext parse s ctx user)) <= 1)%nat.
Proof.
  intros parse s ctx x tweaks user.
  split; [|split; [|split; [|split; [|split; [|split; [|split]]]]]].
  - unfold GetWithContext, singleExchange. run_io.
    destruct (NewRequestWithContext (client s) ctx "GET" _ None) as [req [e|]];
      cbn [fst snd app]; [reflexivity|].
    destruct (Do (client s) User.t unmarshalUser req (Some User.zero))
      as [[v resp] [e|]]; reflexivity.
  - unfold GetByAccountIDWithContext, singleExchange. run_io.
    destruct (NewRequestWithContext (client s) ctx "GET" _ None) as [req [e|]];
      cbn [fst snd app]; [reflexivity|].
    destruct (Do (client s) User.t unmarshalUser req (Some User.zero))
      as [[v resp] [e|]]; reflexivity.
  - unfold DeleteWithContext, singleExchange. run_io.
    destruct (NewRequestWithContext (client s) ctx "DELETE" _ None) as [req [e|]];
      cbn [fst snd app]; [reflexivity|].
    destruct (Do (client s) NoTarget unmarshalNoTarget req None)
      as [[v resp] [e|]]; reflexivity.
  - unfold GetGroupsWithContext, singleExchange. run_io.
    destruct (NewRequestWithContext (client s) ctx "GET" _ None) as [req [e|]];
      cbn [fst snd app]; [reflexivity|].
    destruct (Do (client s) (list UserGroup.t) unmarshalUserGroups req (Some []))
      as [[v resp] [e|]]; reflexivity.
  - unfold GetSelfWithContext, singleExchange. run_io.
    destruct (NewRequestWithContext (client s) ctx "GET" _ None) as [req [e|]];
      cbn [fst snd app]; [reflexivity|].
    destruct (Do (client s) User.t unmarshalUser req (Some User.zero))
      as [[v resp] [e|]]; reflexivity.
  - unfold FindWithContext, singleExchange.
    destruct (findEndpoint x tweaks) as [apiEndpoint|]; [|reflexivity]. run_io.
    destruct (NewRequestWithContext (client s) ctx "GET" _ None) as [req [e|]];
      cbn [fst snd app]; [reflexivity|].
    destruct (Do (client s) (list User.t) unmarshalUsers req (Some []))
      as [[v resp] [e|]]; reflexivity.
  - intros method urlStr. unfold singleExchange.
    destruct (NewRequestWithContext (client s) ctx method urlStr None)
      as [req [e|]]; cbn; split; auto.
  - unfold calls. rewrite create_run. cbv zeta.
    destruct (NewRequestWithContext (client s) ctx "POST" "/rest/api/2/user"
                                    (Some (marshalUserPtr user))) as [req [e|]];
      [cbn; lia|].
    destruct (Do (client s) NoTarget unmarshalNoTarget req None)
      as [[v resp] [e|]]; [cbn; lia|].
    destruct resp as [r|]; [|cbn; lia].
    destruct (failure (Body r)); [cbn; lia|].
    destruct (json_Unmarshal parse (content (Body r)) User.zero) as [ru [e|]];
      cbn; lia.
Qed.

(** ** What a call hands back *)

(** The results of the operations that decode through the executor, path
    by path. *)
Lemma get_result (s : UserService) (ctx : Context) (username : string) :
  result (GetWithContext s ctx username)
  = match NewRequestWithContext (client s) ctx "GET"
            ("/rest/api/2/user?username=" ++ username) None with
    | (_, Some e) => (None, None, Some e)
    | (req, None) =>
        match Do (client s) User.t unmarshalUser req (Some User.zero) with
        | (_, resp, Some e) => (None, resp, Some (NewJiraError resp e))
        | (user, resp, None) => (user, resp, None)
        end
    end.
Proof.
  unfold GetWithContext. run_io.
  destruct (NewRequestWithContext (client s) ctx "GET" _ None) as [req [e|]];
    cbn [fst snd app]; [reflexivity|].
  destruct (Do (client s) User.t unmarshalUser req (Some User.zero))
    as [[v resp] [e|]]; reflexivity.
Qed.

Lemma get_by_account_id_result (s : UserService) (ctx : Context)
      (accountID : string) :
  result (GetByAccountIDWithContext s ctx accountID)
  = match NewRequestWithContext (client s) ctx "GET"
            ("/rest/api/2/user?accountId=" ++ accountID) None with
    | (_, Some e) => (None, None, Some e)
    | (req, None) =>
        match Do (client s) User.t unmarshalUser req (Some User.zero) with
        | (_, resp, Some e) => (None, resp, Some (NewJiraError resp e))
        | (user, resp, None) => (user, resp, None)
        end
    end.
Proof.
  unfold GetByAccountIDWithContext. run_io.
  destruct (NewRequestWithContext (client s) ctx "GET" _ None) as [req [e|]];
    cbn [fst snd app]; [reflexivity|].
  destruct (Do (client s) User.t unmarshalUser req (Some User.zero))
    as [[v resp] [e|]]; reflexivity.
Qed.

Lemma delete_result (s : UserService) (ctx : Context) (username : string) :
  result (DeleteWithContext s ctx username)
  = match NewRequestWithContext (client s) ctx "DELETE"
            ("/rest/api/2/user?username=" ++ username) None with
    | (_, Some e) => (None, Some e)
    | (req, None) =>
        match Do (client s) NoTarget unmarshalNoTarget req None with
        | (_, resp, Some e) => (resp, Some (NewJiraError resp e))
        | (_, resp, None) => (resp, None)
        end
    end.
Proof.
  unfold DeleteWithContext. run_io.
  destruct (NewRequestWithContext (client s) ctx "DELETE" _ None) as [req [e|]];
    cbn [fst snd app]; [reflexivity|].
  destruct (Do (client s) NoTarget unmarshalNoTarget req None)
    as [[v resp] [e|]]; reflexivity.
Qed.

Lemma get_groups_result (s : UserService) (ctx : Context) (username : string) :
  result (GetGroupsWithContext s ctx username)
  = match NewRequestWithContext (client s) ctx "GET"
            ("/rest/api/2/user/groups?username=" ++ username) None with
    | (_, Some e) => (None, None, Some e)
    | (req, None) =>
        match Do (client s) (list UserGroup.t) unmarshalUserGroups req (Some []) with
        | (_, resp, Some e) => (None, resp, Some (NewJiraError resp e))
        | (groups, resp, None) => (groups, resp, None)
        end
    end.
Proof.
  unfold GetGroupsWithContext. run_io.
  destruct (NewRequestWithContext (client s) ctx "GET" _ None) as [req [e|]];
    cbn [fst snd app]; [reflexivity|].
  destruct (Do (client s) (list UserGroup.t) unmarshalUserGroups req (Some []))
    as [[v resp] [e|]]; reflexivity.
Qed.

Lemma get_self_result (s : UserService) (ctx : Context) :
  result (GetSelfWithContext s ctx)
  = match NewRequestWithContext (client s) ctx "GET" "rest/api/2/myself" None with
    | (_, Some e) => (None, None, Some e)
    | (req, None) =>
        match Do (client s) User.t unmarshalUser req (Some User.zero) with
        | (_, resp, Some e) => (None, resp, Some (NewJiraError resp e))
        | (user, resp, None) => (user, resp, None)
        end
    end.
Proof.
  unfold GetSelfWithContext. run_io.
  destruct (NewRequestWithContext (client s) ctx "GET" _ None) as [req [e|]];
    cbn [fst snd app]; [reflexivity|].
  destruct (Do (client s) User.t unmarshalUser req (Some User.zero))
    as [[v resp] [e|]]; reflexivity.
Qed.

Lemma find_result (s : UserService) (ctx : Context) (property : string)
      (tweaks : list userSearchF) :
  result (FindWithContext s ctx property tweaks)
  = match findEndpoint property tweaks with
    | Panics => Panics
    | Returns apiEndpoint =>
        match NewRequestWithContext (client s) ctx "GET" apiEndpoint None with
        | (_, Some e) => Returns (None, None, Some e)
        | (req, None) =>
            match Do (client s) (list User.t) unmarshalUsers req (Some []) with
            | (_, resp, Some e) => Returns (None, resp, Some (NewJiraError resp e))
            | (users, resp, None) => Returns (users, resp, None)
            end
        end
    end.
Proof.
  unfold FindWithContext.
  destruct (findEndpoint property tweaks) as [apiEndpoint|]; [|reflexivity].
  run_io.
  destruct (NewRequestWithContext (client s) ctx "GET" _ None) as [req [e|]];
    cbn [fst snd app]; [reflexivity|].
  destruct (Do (client s) (list User.t) unmarshalUsers req (Some []))
    as [[v resp] [e|]]; reflexivity.
Qed.

(** Splits the result of an operation into its exits. *)
Ltac by_exits :=
  repeat match goal with
         | |- context [match ?x with _ => _ end] =>
             lazymatch x with
             | NewRequestWithContext _ _ _ _ _ => destruct x as [? [?|]]
             | Do _ _ _ _ _ => destruct x as [[? ?] [?|]]
             | findEndpoint _ _ => destruct x
             end
         end.

(** X2: no operation returns a value together with an error: when get,
    get-by-account-id, get-groups, get-self, find or create returns a
    non-nil error, the user, group list or user list it returns is nil,
    also where the executor had decoded something before it failed. *)
Theorem X2_error_excludes_value :
  forall (parse : string -> option JSON) (s : UserService) (ctx : Context)
         (x : string) (tweaks : list userSearchF) (user : option User.t),
    (errorOf (result (GetWithContext s ctx x)) <> None ->
     valueOf (result (GetWithContext s ctx x)) = None)
    /\ (errorOf (result (GetByAccountIDWithContext s ctx x)) <> None ->
        valueOf (result (GetByAccountIDWithContext s ctx x)) = None)
    /\ (errorOf (result (GetGroupsWithContext s ctx x)) <> None ->
        valueOf (result (GetGroupsWithContext s ctx x)) = None)
    /\ (errorOf (result (GetSelfWithContext s ctx)) <> None ->
        valueOf (result (GetSelfWithContext s ctx)) = None)
    /\ (forall r : usersResult,
           result (FindWithContext s ctx x tweaks) = Returns r ->
           errorOf r <> None -> valueOf r = None)
    /\ (forall r : userResult,
           result (CreateWithContext parse s ctx user) = Returns r ->
           errorOf r <> None -> valueOf r = None).
Proof.
  intros parse s ctx x tweaks user.
  split; [|split; [|split; [|split; [|split]]]].
  - rewrite get_result. by_exits; cbn; congruence.
  - rewrite get_by_account_id_result. by_exits; cbn; congruence.
  - rewrite get_groups_result. by_exits; cbn; congruence.
  - rewrite get_self_result. by_exits; cbn; congruence.
  - intros r. rewrite find_result.
    by_exits; intros H; inversion H; cbn; congruence.
  - intros r. unfold result. rewrite create_run. cbv zeta.
    destruct (NewRequestWithContext (client s) ctx "POST" "/rest/api/2/user"
                                    (Some (marshalUserPtr user))) as [req [e|]];
      cbn [fst]; [intros H; inversion H; reflexivity|].
    destruct (Do (client s) NoTarget unmarshalNoTarget req None)
      as [[v resp] [e|]]; cbn [fst]; [intros H; inversion H; reflexivity|].
    destruct resp as [resp|]; cbn [fst]; [|discriminate].
    destruct (failure (Body resp)); cbn [fst];
      [intros H; inversion H; reflexivity|].
    destruct (json_Unmarshal parse (content (Body resp)) User.zero) as [u [e|]];
      cbn [fst]; intros H; inversion H; [reflexivity|].
    intros E. now contradiction E.
Qed.

(** X3: once the request is built, every operation returns the response
    the executor produced, whether the executor reported an error or not,
    and create also when reading or decoding the body fails; and when the
    executor reports no error, get, get-by-account-id, delete, get-groups,
    get-self and find return a nil error with exactly what the executor
    decoded, whatever the status or the body of the response. *)
Theorem X3_executor_results_handed_back :
  forall (parse : string -> option JSON) (s : UserService) (ctx : Context)
         (x : string) (req : option Request) (resp : option Response)
         (err : option error),
    (forall v : option User.t,
        NewRequestWithContext (client s) ctx "GET"
          ("/rest/api/2/user?username=" ++ x) None = (req, None) ->
        Do (client s) User.t unmarshalUser req (Some User.zero) = (v, resp, err) ->
        responseOf (result (GetWithContext s ctx x)) = resp
        /\ (err = None -> result (GetWithContext s ctx x) = (v, resp, None)))
    /\ (forall v : option User.t,
        NewRequestWithContext (client s) ctx "GET"
          ("/rest/api/2/user?accountId=" ++ x) None = (req, None) ->
        Do (client s) User.t unmarshalUser req (Some User.zero) = (v, resp, err) ->
        responseOf (result (GetByAccountIDWithContext s ctx x)) = resp
        /\ (err = None ->
            result (GetByAccountIDWithContext s ctx x) = (v, resp, None)))
    /\ (forall v : option NoTarget,
        NewRequestWithContext (client s) ctx "DELETE"
          ("/rest/api/2/user?username=" ++ x) None = (req, None) ->
        Do (client s) NoTarget unmarshalNoTarget req None = (v, resp, err) ->
        fst (result (DeleteWithContext s ctx x)) = resp
        /\ (err = None -> result (DeleteWithContext s ctx x) = (resp, None)))
    /\ (forall v : option (list UserGroup.t),
        NewRequestWithContext (client s) ctx "GET"
          ("/rest/api/2/user/groups?username=" ++ x) None = (req, None) ->
        Do (client s) (list UserGroup.t) unmarshalUserGroups req (Some [])
        = (v, resp, err) ->
        responseOf (result (GetGroupsWithContext s ctx x)) = resp
        /\ (err = None ->
            result (GetGroupsWithContext s ctx x) = (v, resp, None)))
    /\ (forall v : option User.t,
        NewRequestWithContext (client s) ctx "GET" "rest/api/2/myself" None
        = (req, None) ->
        Do (client s) User.t unmarshalUser req (Some User.zero) = (v, resp, err) ->
        responseOf (result (GetSelfWithContext s ctx)) = resp
        /\ (err = None -> result (GetSelfWithContext s ctx) = (v, resp, None)))
    /\ (forall (tweaks : list userSearchF) (apiEndpoint : string)
               (v : option (list User.t)),
        findEndpoint x tweaks = Returns apiEndpoint ->
        NewRequestWithContext (client s) ctx "GET" apiEndpoint None = (req, None) ->
        Do (client s) (list User.t) unmarshalUsers req (Some []) = (v, resp, err) ->
        (exists (users : option (list User.t)) (e : option error),
            result (FindWithContext s ctx x tweaks) = Returns (users, resp, e))
        /\ (err = None ->
            result (FindWithContext s ctx x tweaks) = Returns (v, resp, None)))
    /\ (forall (user : option User.t) (v : option NoTarget) (r : userResult),
        NewRequestWithContext (client s) ctx "POST" "/rest/api/2/user"
          (Some (marshalUserPtr user)) = (req, None) ->
        Do (client s) NoTarget unmarshalNoTarget req None = (v, resp, err) ->
        result (CreateWithContext parse s ctx user) = Returns r ->
        responseOf r = resp).
Proof.
  intros parse s ctx x req resp err.
  split; [|split; [|split; [|split; [|split; [|split]]]]].
  - intros v Hb Hd. rewrite get_result, Hb, Hd.
    destruct err; split; try reflexivity; discriminate.
  - intros v Hb Hd. rewrite get_by_account_id_result, Hb, Hd.
    destruct err; split; try reflexivity; discriminate.
  - intros v Hb Hd. rewrite delete_result, Hb, Hd.
    destruct err; split; try reflexivity; discriminate.
  - intros v Hb Hd. rewrite get_groups_result, Hb, Hd.
    destruct err; split; try reflexivity; discriminate.
  - intros v Hb Hd. rewrite get_self_result, Hb, Hd.
    destruct err; split; try reflexivity; discriminate.
  - intros tweaks apiEndpoint v Hep Hb Hd. rewrite find_result, Hep, Hb, Hd.
    destruct err; split; try (eexists; eexists; reflexivity);
      try reflexivity; discriminate.
  - intros user v r Hb Hd. unfold result. rewrite create_run. cbv zeta.
    rewrite Hb, Hd. destruct err as [e|]; cbn [fst];
      [intros H; inversion H; reflexivity|].
    destruct resp as [r'|]; cbn [fst]; [|discriminate].
    destruct (failure (Body r')); cbn [fst];
      [intros H; inversion H; reflexivity|].
    destruct (json_Unmarshal parse (content (Body r')) User.zero) as [u [e|]];
      cbn [fst]; intros H; inversion H; reflexivity.
Qed.

(** ** More on the JSON mapping *)




Lemma map_fst_flat_map {F A B : Type} (g : F -> list (A * B)) (l : list F) :
  map fst (flat_map g l) = flat_map (fun f => map fst (g f)) l.
Proof.
  induction l as [|f l IH]; [reflexivity|]. cbn [flat_map].
  now rewrite map_app, IH.
Qed.

Lemma flat_map_optional {F B : Type} (h : F -> list B) (n : F -> B)
      (p : F -> bool) (l : list F) :
  (forall f : F, h f = if p f then [n f] else []) ->
  flat_map h l = map n (filter p l).
Proof.
  intros H. induction l as [|f l IH]; [reflexivity|]. cbn [flat_map filter].
  rewrite H, IH. now destruct (p f).
Qed.

Lemma marshalUserField_key (f : User.field) (u : User.t) :
  map fst (marshalUserField f u)
  = if negb (isEmptyValue f u) then [User.jsonName f] else [].
Proof.
  destruct f; cbn [marshalUserField isEmptyValue];
    unfold omitemptyString, omitemptyBool, omitemptyStrings;
    try match goal with
        | |- context [?v =? ""] => destruct (v =? "")
        end; try reflexivity.
  - now destruct (User.Active u).
  - now destruct (User.ApplicationKeys u).
Qed.

Lemma NoDup_map_filter {A B : Type} (n : A -> B) (p : A -> bool) (l : list A) :
  NoDup (map n l) -> NoDup (map n (filter p l)).
Proof.
  induction l as [|a l IH]; cbn; intros H; [constructor|].
  inversion H as [|? ? Hin Hnd]; subst.
  destruct (p a); cbn; [|now apply IH].
  constructor; [|now apply IH].
  intros Hin'. apply Hin. apply in_map_iff in Hin'.
  destruct Hin' as (b & Hb & Hf). apply filter_In in Hf.
  apply in_map_iff. exists b. tauto.
Qed.

Lemma user_field_names_distinct : NoDup (map User.jsonName User.fields).
Proof.
  cbn. repeat constructor; cbn; intuition discriminate.
Qed.

(** X5: the members of an encoded User are its non-empty fields, one
    member each, in the order the struct declares them; so no key occurs
    twice in a request body. *)
Theorem X5_encoded_members :
  forall u : User.t,
    topKeys (marshalUser u)
    = map User.jsonName (filter (fun f => negb (isEmptyValue f u)) User.fields)
    /\ NoDup (topKeys (marshalUser u)).
Proof.
  intros u.
  assert (H : topKeys (marshalUser u)
              = map User.jsonName
                    (filter (fun f => negb (isEmptyValue f u)) User.fields)).
  { cbv beta iota delta [topKeys marshalUser member]. rewrite map_fst_flat_map.
    apply flat_map_optional. intros f. apply marshalUserField_key. }
  split; [exact H|]. rewrite H.
  apply NoDup_map_filter, user_field_names_distinct.
Qed.


(** X7: when the request was built and executed without error and the
    body of the response is the encoding of a user, in the fields the
    server chose, a create returns exactly that user, its Password empty,
    with the response and a nil error: nothing of the user that was sent
    leaks into the user that comes back. *)
Theorem X7_create_returns_the_encoded_user :
  forall (parse : string -> option JSON) (s : UserService) (ctx : Context)
         (user : option User.t) (req : option Request) (v : option NoTarget)
         (r : Response) (served : User.t),
    NewRequestWithContext (client s) ctx "POST" "/rest/api/2/user"
                          (Some (marshalUserPtr user)) = (req, None) ->
    Do (client s) NoTarget unmarshalNoTarget req None = (v, Some r, None) ->
    failure (Body r) = None ->
    parse (content (Body r)) = Some (marshalUser served) ->
    result (CreateWithContext parse s ctx user)
    = Returns (Some (User.withPassword "" served), Some r, None).
Proof.
  intros parse s ctx user req v r served Hb Hd Hf Hp.
  unfold result. rewrite create_run. cbv zeta. rewrite Hb, Hd, Hf.
  unfold json_Unmarshal. rewrite Hp.
  change (unmarshalJSON (marshalUser served) User.zero)
    with (unmarshalUser (marshalUser served) User.zero).
  now rewrite user_round_trip.
Qed.




(** ** More on the search endpoint *)

(** X9: for any list of tweaks, find panics, before it calls anything,
    exactly when the tweaks leave the search empty (the slice at line 256
    then has a negative bound); otherwise its endpoint is the search path
    followed by the parameters the tweaks left, in their order, joined by
    single ampersands with none at the end. *)
Theorem X9_find_endpoint_of_any_tweaks :
  forall (s : UserService) (ctx : Context) (property : string)
         (tweaks : list userSearchF),
    findEndpoint property tweaks
    = match applyTweaks property tweaks with
      | [] => Panics
      | p :: ps =>
          Returns ("/rest/api/2/user/search?" ++ renderParam p ++ renderMore ps)
      end
    /\ (applyTweaks property tweaks = [] ->
        run (FindWithContext s ctx property tweaks) = (Panics, [])).
Proof.
  intros s ctx property tweaks.
  assert (H : findEndpoint property tweaks
              = match applyTweaks property tweaks with
                | [] => Panics
                | p :: ps =>
                    Returns ("/rest/api/2/user/search?" ++ renderParam p
                             ++ renderMore ps)
                end).
  { unfold findEndpoint. destruct (applyTweaks property tweaks) as [|p ps];
      [reflexivity|].
    now rewrite writeParams_cons, sliceTo_drop_last. }
  split; [exact H|].
  intros E. unfold FindWithContext. rewrite H, E. reflexivity.
Qed.

Lemma splitOn_no_separator (sep : ascii) (a : string) :
  occurs sep a = false -> splitOn sep a = [a].
Proof.
  induction a as [|x a IH]; cbn [occurs splitOn]; intros H; [reflexivity|].
  apply orb_false_iff in H. destruct H as [Hx Ha].
  rewrite Hx, (IH Ha). reflexivity.
Qed.

Lemma splitOn_at_separator (sep : ascii) (a b : string) :
  occurs sep a = false ->
  splitOn sep (a ++ String sep b) = a :: splitOn sep b.
Proof.
  induction a as [|x a IH]; cbn [occurs splitOn append]; intros H.
  - now rewrite Ascii.eqb_refl.
  - apply orb_false_iff in H. destruct H as [Hx Ha].
    rewrite Hx, (IH Ha). reflexivity.
Qed.

Lemma cut_at_separator (sep : ascii) (a b : string) :
  occurs sep a = false -> cut sep (a ++ String sep b) = (a, Some b).
Proof.
  induction a as [|x a IH]; cbn [occurs cut append]; intros H.
  - now rewrite Ascii.eqb_refl.
  - apply orb_false_iff in H. destruct H as [Hx Ha].
    rewrite Hx, (IH Ha). reflexivity.
Qed.

Lemma occurs_append (c : ascii) (a b : string) :
  occurs c (a ++ b) = occurs c a || occurs c b.
Proof.
  induction a as [|x a IH]; cbn [occurs append]; [reflexivity|].
  now rewrite IH, orb_assoc.
Qed.

(** A decimal numeral holds digits and at most a minus sign. *)
Lemma fmt_d_no_ampersand (n : Z) : occurs "&" (fmt_d n) = false.
Proof.
  assert (Hu : forall d, occurs "&" (NilEmpty.string_of_uint d) = false)
    by (induction d; cbn; auto).
  assert (Hz : forall d, occurs "&" (NilZero.string_of_uint d) = false)
    by (intros d; destruct d; try apply Hu; reflexivity).
  unfold fmt_d. destruct (Z.to_int n); cbn; apply Hz.
Qed.

Lemma paramOf_plain (o : searchOption) : plain (paramOf o) = true.
Proof.
  unfold plain. destruct o as [n|n|b|b]; cbn [paramOf name value];
    rewrite ?fmt_d_no_ampersand; try reflexivity; now destruct b.
Qed.

Lemma renderParam_no_ampersand (p : userSearchParam) :
  plain p = true -> occurs "&" (renderParam p) = false.
Proof.
  unfold plain, renderParam. intros H.
  apply andb_true_iff in H. destruct H as [H _].
  apply andb_true_iff in H. destruct H as [Hn Hv].
  apply negb_true_iff in Hn. apply negb_true_iff in Hv.
  rewrite !occurs_append, Hn, Hv. reflexivity.
Qed.

Lemma splitOn_rendered (first : string) (ps : list userSearchParam) :
  occurs "&" first = false ->
  forallb plain ps = true ->
  splitOn "&" (first ++ renderMore ps) = first :: map renderParam ps.
Proof.
  revert first. induction ps as [|p ps IH]; intros first Hf Hps;
    cbn [renderMore map].
  - rewrite append_nil_r. now apply splitOn_no_separator.
  - cbn [forallb] in Hps. apply andb_true_iff in Hps. destruct Hps as [Hp Hps].
    change ("&" ++ renderParam p ++ renderMore ps)
      with (String "&" (renderParam p ++ renderMore ps)).
    rewrite (splitOn_at_separator "&" first _ Hf).
    rewrite (IH (renderParam p) (renderParam_no_ampersand p Hp) Hps).
    reflexivity.
Qed.

Lemma cut_rendered (p : userSearchParam) :
  occurs "=" (name p) = false ->
  cut "=" (renderParam p) = (name p, Some (value p)).
Proof.
  intros H. unfold renderParam.
  change ("=" ++ value p) with (String "=" (value p)).
  now apply cut_at_separator.
Qed.

Lemma queryParams_rendered (p : userSearchParam) (ps : list userSearchParam) :
  occurs "&" (renderParam p) = false ->
  occurs "=" (name p) = false ->
  forallb plain ps = true ->
  queryParams (renderParam p ++ renderMore ps) = pairOf p :: map pairOf ps.
Proof.
  intros Hamp Heq Hps. unfold queryParams.
  rewrite (splitOn_rendered _ _ Hamp Hps). cbn [map].
  rewrite (cut_rendered p Heq). f_equal.
  clear Hamp Heq. induction ps as [|q ps IH]; [reflexivity|].
  cbn [forallb] in Hps. apply andb_true_iff in Hps. destruct Hps as [Hq Hps].
  cbn [map]. rewrite (IH Hps). f_equal.
  unfold plain in Hq. apply andb_true_iff in Hq. destruct Hq as [_ Hq].
  apply negb_true_iff in Hq. now rewrite (cut_rendered q Hq).
Qed.

(** X10: when the property holds no ampersand, the query string find sends
    with any list of the four modifiers reads back, split at the
    ampersands and each piece at its first equals sign, as the pair
    username and property followed by one pair per modifier, in the order
    given, duplicates included: the modifiers cannot break the query
    string, only the property can. *)
Theorem X10_find_query_reads_back :
  forall (property : string) (os : list searchOption) (apiEndpoint : string),
    occurs "&" property = false ->
    findEndpoint property (map tweakOf os) = Returns apiEndpoint ->
    queryParams (queryOf apiEndpoint)
    = ("username", property) :: map pairOf (map paramOf os).
Proof.
  intros property os apiEndpoint Hamp Hep.
  rewrite findEndpoint_options in Hep.
  assert (apiEndpoint = "/rest/api/2/user/search?" ++ "username=" ++ property
                        ++ renderMore (map paramOf os)) as -> by congruence.
  change (queryOf ("/rest/api/2/user/search?" ++ "username=" ++ property
                   ++ renderMore (map paramOf os)))
    with (renderParam {| name := "username"; value := property |}
          ++ renderMore (map paramOf os)).
  apply queryParams_rendered.
  - unfold renderParam. cbn [name value]. rewrite !occurs_append, Hamp.
    reflexivity.
  - reflexivity.
  - rewrite forallb_forall. intros p Hin. apply in_map_iff in Hin.
    destruct Hin as (o & <- & _). apply paramOf_plain.
Qed.

Lemma fmt_d_reads_back (n : Z) :
  option_map Z.of_int (NilZero.int_of_string (fmt_d n)) = Some n.
Proof.
  unfold fmt_d. rewrite NilZero.isi.
  - cbn [option_map]. now rewrite DecimalZ.of_to.
  - destruct n as [|p|p]; cbn [Z.to_int]; try discriminate.
    intros H. injection H as H. exact (Unsigned.to_uint_nonnil p H).
  - destruct n as [|p|p]; cbn [Z.to_int]; try discriminate.
    intros H. injection H as H. exact (Unsigned.to_uint_nonnil p H).
Qed.

Lemma fmt_d_injective (n m : Z) : fmt_d n = fmt_d m -> n = m.
Proof.
  intros H. pose proof (fmt_d_reads_back n) as Hn.
  rewrite H, fmt_d_reads_back in Hn. now injection Hn.
Qed.

(** X11: the value WithMaxResults and WithStartAt write is the decimal
    numeral of the integer they are given, negative integers included (no
    range is checked): it reads back to that integer, so two different
    integers never give the same parameter. *)
Theorem X11_integer_options_read_back :
  forall (n m : Z) (s : userSearch),
    WithMaxResults n s
    = (s ++ [{| name := "maxResults"; value := fmt_d n |}])%list
    /\ WithStartAt n s = (s ++ [{| name := "startAt"; value := fmt_d n |}])%list
    /\ option_map Z.of_int (NilZero.int_of_string (fmt_d n)) = Some n
    /\ (WithMaxResults n s = WithMaxResults m s -> n = m)
    /\ (WithStartAt n s = WithStartAt m s -> n = m).
Proof.
  intros n m s. split; [reflexivity|]. split; [reflexivity|].
  split; [apply fmt_d_reads_back|]. unfold WithMaxResults, WithStartAt.
  split; intros H; apply app_inv_head in H; injection H as H;
    now apply fmt_d_injective.
Qed.

(** ** Further concrete runs *)

(** X2 and X3 at a server that answers 503: get-by-username returns the
    wrapped error, the response of the executor and no user. *)
Lemma X2_unavailable_get :
  errorOf (result (GetWithContext serverUnavailable Background "jdoe")) <> None
  /\ valueOf (result (GetWithContext serverUnavailable Background "jdoe")) = None.
Proof.
  assert (H : errorOf (result (GetWithContext serverUnavailable Background "jdoe"))
              <> None) by discriminate.
  split; [exact H|].
  exact (proj1 (X2_error_excludes_value (fixtureParse fixture) serverUnavailable
                  Background "jdoe" [] None) H).
Defined.

Lemma X3_get_hands_back :
  responseOf (result (GetWithContext serverSaysBob Background "jdoe"))
  = Some createdBob
  /\ result (GetWithContext serverSaysBob Background "jdoe")
     = (Some bob, Some createdBob, None).
Proof.
  pose proof (proj1 (X3_executor_results_handed_back (fixtureParse fixture)
                       serverSaysBob Background "jdoe" _ (Some createdBob) None)
                (Some bob) eq_refl eq_refl) as H.
  exact (conj (proj1 H) (proj2 H eq_refl)).
Defined.



(** X7 at a server that answers with the encoding of alice. *)
Lemma X7_alice_echoed :
  result (CreateWithContext (echoParse alice) (serverEchoes alice) Background
                            (Some alice))
  = Returns (Some (User.withPassword "" alice), Some (echoed alice), None).
Proof.
  exact (X7_create_returns_the_encoded_user (echoParse alice) (serverEchoes alice)
           Background (Some alice) _ None (echoed alice) alice
           eq_refl eq_refl eq_refl eq_refl).
Defined.

(** X9 at a tweak that drops every parameter. *)
Lemma X9_emptied_search_panics :
  run (FindWithContext serverSaysBob Background "jdoe" [fun _ => []])
  = (Panics, []).
Proof.
  exact (proj2 (X9_find_endpoint_of_any_tweaks serverSaysBob Background "jdoe"
                  [fun _ => []]) eq_refl).
Defined.

(** X10 at a search with a repeated modifier and a property that holds an
    equals sign. *)
Lemma X10_query_of_three_options :
  queryParams (queryOf "/rest/api/2/user/search?username=a=b&maxResults=5&includeActive=true&maxResults=-1")
  = [("username", "a=b"); ("maxResults", "5"); ("includeActive", "true");
     ("maxResults", "-1")].
Proof.
  exact (X10_find_query_reads_back "a=b"
           [MaxResults 5; Active true; MaxResults (-1)] _ eq_refl eq_refl).
Defined.

(** X11 at equal parameters. *)
Lemma X11_same_parameter_same_integer :
  WithMaxResults 50 [] = WithMaxResults 50 [] /\ (50 = 50)%Z.
Proof.
  split; [reflexivity|].
  exact (proj1 (proj2 (proj2 (proj2 (X11_integer_options_read_back 50 50 []))))
           eq_refl).
Defined.
